(** * Booking and payment verification of the storage renting system

    A shallow embedding of [server/api/services/booking.service.js]
    (class [BookingService]) and the properties of its booking flow,
    followed by the registration service (class [AuthService]), which
    writes the storage documents that a booking reads.

    - The two Firestore collections, the orders requested from the payment
      gateway and the error log are the state that the service's methods
      pass along; a method is a function from that state to a result (a
      value or a thrown error) and a new state.
    - What the collaborators answer during a call (the store, the gateway,
      [nanoid()], the clock) is given to the call as a record of replies.
    - JavaScript strings are represented by their UTF-8 encoding (Rocq's
      [string] is a sequence of bytes). Numbers that the service handles
      (amounts, box counts, week counts, epoch milliseconds) are integers
      of [Z]; on integers of at most 2^53 in size the arithmetic of the
      service is exact, and so is its rendering of them as strings.
    - Calls are taken one after the other: a write that a call starts is
      in the store when the call returns. *)

From Stdlib Require Import ZArith String Ascii List Lia.
From stdpp Require Import gmap strings list fin_maps pretty.
Import ListNotations.

Local Open Scope string_scope.
Local Open Scope Z_scope.

(** ** Node's [crypto.createHmac("sha256", key).update(msg).digest("hex")]

    The service calls the runtime's HMAC; it is written out here
    (FIPS 180-4 and RFC 2104) so that the service can be evaluated. Words
    are 32-bit values of [Z], reduced modulo [2^32] after every addition
    and left shift. *)
Module Crypto.

Definition w32 (x : Z) : Z := x mod 2 ^ 32.
Definition add32 (x y : Z) : Z := w32 (x + y).
Definition rotr (n x : Z) : Z :=
  Z.lor (Z.shiftr x n) (w32 (Z.shiftl x (32 - n))).
Definition not32 (x : Z) : Z := Z.lxor x (2 ^ 32 - 1).

Definition Ch (x y z : Z) : Z := Z.lxor (Z.land x y) (Z.land (not32 x) z).
Definition Maj (x y z : Z) : Z :=
  Z.lxor (Z.lxor (Z.land x y) (Z.land x z)) (Z.land y z).
Definition bsig0 (x : Z) : Z := Z.lxor (Z.lxor (rotr 2 x) (rotr 13 x)) (rotr 22 x).
Definition bsig1 (x : Z) : Z := Z.lxor (Z.lxor (rotr 6 x) (rotr 11 x)) (rotr 25 x).
Definition ssig0 (x : Z) : Z := Z.lxor (Z.lxor (rotr 7 x) (rotr 18 x)) (Z.shiftr x 3).
Definition ssig1 (x : Z) : Z := Z.lxor (Z.lxor (rotr 17 x) (rotr 19 x)) (Z.shiftr x 10).

(** The constants are the leading 32 fractional bits of the square roots
    (initial hash value) and cube roots (round constants) of the first
    primes; they are computed rather than tabulated. *)
Definition primes64 : list Z :=
  [2; 3; 5; 7; 11; 13; 17; 19; 23; 29; 31; 37; 41; 43; 47; 53;
   59; 61; 67; 71; 73; 79; 83; 89; 97; 101; 103; 107; 109; 113; 127; 131;
   137; 139; 149; 151; 157; 163; 167; 173; 179; 181; 191; 193; 197; 199;
   211; 223; 227; 229; 233; 239; 241; 251; 257; 263; 269; 271; 277; 281;
   283; 293; 307; 311].

(** Largest [r] below [2^bits] above [acc] with [r^3 <= n], one bit at a time. *)
Fixpoint cbrt_bits (bits : nat) (n acc : Z) : Z :=
  match bits with
  | O => acc
  | S b =>
      let cand := acc + 2 ^ Z.of_nat b in
      cbrt_bits b n (if cand * cand * cand <=? n then cand else acc)
  end.

Definition frac_sqrt32 (p : Z) : Z := w32 (Z.sqrt (p * 2 ^ 64)).
Definition frac_cbrt32 (p : Z) : Z := w32 (cbrt_bits 40 (p * 2 ^ 96) 0).

Definition H0 : list Z := Eval vm_compute in map frac_sqrt32 (firstn 8 primes64).
Definition K : list Z := Eval vm_compute in map frac_cbrt32 primes64.

Definition hstate : Type := (Z * Z * Z * Z * Z * Z * Z * Z)%type.

Definition round (k w : Z) (s : hstate) : hstate :=
  let '(a, b, c, d, e, f, g, h) := s in
  let t1 := add32 (add32 (add32 h (bsig1 e)) (add32 (Ch e f g) k)) w in
  let t2 := add32 (bsig0 a) (Maj a b c) in
  (add32 t1 t2, a, b, c, add32 d t1, e, f, g).

(** [win] holds the sixteen schedule words W(t) .. W(t+15) of the round. *)
Fixpoint rounds (ks : list Z) (win : list Z) (s : hstate) : hstate :=
  match ks, win with
  | k :: ks', w0 :: rest =>
      let wnew :=
        add32 (add32 (ssig1 (nth 14 win 0)) (nth 9 win 0))
              (add32 (ssig0 (nth 1 win 0)) w0) in
      rounds ks' (rest ++ [wnew])%list (round k w0 s)
  | _, _ => s
  end.

Fixpoint be_words (n : nat) (bs : list Z) : list Z :=
  match n with
  | O => []
  | S n' =>
      (nth 0 bs 0 * 2 ^ 24 + nth 1 bs 0 * 2 ^ 16 + nth 2 bs 0 * 2 ^ 8 + nth 3 bs 0)
      :: be_words n' (skipn 4 bs)
  end.

Definition compress (s : hstate) (block : list Z) : hstate :=
  let '(a, b, c, d, e, f, g, h) := s in
  let '(a', b', c', d', e', f', g', h') := rounds K (be_words 16 block) s in
  (add32 a a', add32 b b', add32 c c', add32 d d',
   add32 e e', add32 f f', add32 g g', add32 h h').

Fixpoint be_bytes (n : nat) (x : Z) : list Z :=
  match n with
  | O => []
  | S n' => (Z.shiftr x (8 * Z.of_nat n')) mod 256 :: be_bytes n' x
  end.

Definition pad (msg : list Z) : list Z :=
  let len := Z.of_nat (length msg) in
  (msg ++ [128] ++ repeat 0 (Z.to_nat ((55 - len) mod 64)) ++ be_bytes 8 (8 * len))%list.

Fixpoint blocks (n : nat) (s : hstate) (bs : list Z) : hstate :=
  match n with
  | O => s
  | S n' => blocks n' (compress s (firstn 64 bs)) (skipn 64 bs)
  end.

Definition init : hstate :=
  (nth 0 H0 0, nth 1 H0 0, nth 2 H0 0, nth 3 H0 0,
   nth 4 H0 0, nth 5 H0 0, nth 6 H0 0, nth 7 H0 0).

Definition sha256 (msg : list Z) : list Z :=
  let p := pad msg in
  let '(a, b, c, d, e, f, g, h) := blocks (length p / 64)%nat init p in
  flat_map (be_bytes 4) [a; b; c; d; e; f; g; h].

Definition hmac_sha256 (key msg : list Z) : list Z :=
  let k := if (64 <? Z.of_nat (length key)) then sha256 key else key in
  let k := (k ++ repeat 0 (64 - length k)%nat)%list in
  sha256 (map (Z.lxor 92) k ++ sha256 (map (Z.lxor 54) k ++ msg))%list.

Definition bytes_of_string (s : string) : list Z :=
  map (fun c => Z.of_N (N_of_ascii c)) (list_ascii_of_string s).

Definition hex_digit (d : Z) : ascii :=
  ascii_of_N (Z.to_N (if d <? 10 then 48 + d else 87 + d)).

Fixpoint hex (bs : list Z) : string :=
  match bs with
  | [] => ""
  | b :: bs' => String (hex_digit (b / 16)) (String (hex_digit (b mod 16)) (hex bs'))
  end.

(** [createHmac("sha256", key).update(msg).digest("hex")] *)
Definition hmac_sha256_hex (key msg : string) : string :=
  hex (hmac_sha256 (bytes_of_string key) (bytes_of_string msg)).

Definition sha256_hex (msg : string) : string := hex (sha256 (bytes_of_string msg)).

End Crypto.

(** ** Values and documents *)

(** Field values of a Firestore document as JavaScript sees them. *)
#[warnings="-register-all"]
Inductive jsval : Type :=
  | JUndefined
  | JNull
  | JBool (b : bool)
  | JNum (n : Z)
  | JStr (s : string)
  | JArr (elems : list jsval).

(** ToBoolean, as applied by the conditional operator. *)
Definition truthy (v : jsval) : bool :=
  match v with
  | JUndefined | JNull => false
  | JBool b => b
  | JNum n => negb (n =? 0)
  | JStr s => negb (String.eqb s "")
  | JArr _ => true
  end.

(** A [Date]: a time value in milliseconds since the epoch, or an invalid
    date. [new Date(v)] clips [v] to the range of valid time values. *)
Inductive Date : Type :=
  | ValidDate (ms : Z)
  | InvalidDate.

Definition newDate (v : Z) : Date :=
  if Z.abs v <=? 8640000000000000 then ValidDate v else InvalidDate.

(** Milliseconds between two dates, when both are valid. *)
Definition date_diff (d2 d1 : Date) : option Z :=
  match d2, d1 with
  | ValidDate t2, ValidDate t1 => Some (t2 - t1)
  | _, _ => None
  end.

(** The document written by [addBookingToFirebase]; [update] later adds
    [paidAt], which is absent ([None]) until then. *)
Record Booking : Type := {
  storageId : string;
  userId : string;
  userName : string;
  storageName : jsval;
  image : jsval;
  boxes : Z;
  amount : Z;
  address : jsval;
  phone : jsval;
  storageType : string;
  orderId : string;
  fromDate : Date;
  toDate : Date;
  paid : bool;
  paidAt : option Date;
}.

(** A storage document is read field by field, whatever its shape. *)
Abbreviation StorageData := (gmap string jsval).

(** The argument of [razorpayInstance.orders.create] and the part of its
    reply that the service reads. *)
Record OrderRequest : Type := {
  req_amount : string;
  req_currency : string;
  req_receipt : string;
}.

Record Order : Type := { order_id : string }.

(** What the service throws: its own [{ status, message }] objects, the
    runtime's [TypeError], and the rejections of its two collaborators. *)
Inductive error : Type :=
  | Thrown (status : Z) (message : string)
  | TypeError (reading : string)
  | GatewayError (reason : string)
  | StoreError (reason : string).

(** The collaborators' state: the two collections, the orders requested
    from the gateway (latest first) and the error log (latest first). *)
Record World : Type := {
  bookings : gmap string Booking;
  storages : gmap string StorageData;
  gateway_orders : list OrderRequest;
  error_log : list (string * error);
}.

Definition set_bookings (f : gmap string Booking → gmap string Booking) (w : World) : World :=
  {| bookings := f (bookings w); storages := storages w;
     gateway_orders := gateway_orders w; error_log := error_log w |}.

Definition push_order (r : OrderRequest) (w : World) : World :=
  {| bookings := bookings w; storages := storages w;
     gateway_orders := r :: gateway_orders w; error_log := error_log w |}.

Definition push_error (tag : string) (e : error) (w : World) : World :=
  {| bookings := bookings w; storages := storages w;
     gateway_orders := gateway_orders w; error_log := (tag, e) :: error_log w |}.

(** A [DocumentSnapshot]: [exists] and [data()] are read off [snap_data],
    [ref] off [snap_id]. *)
Record Snapshot (D : Type) : Type := { snap_id : string; snap_data : option D }.
Arguments snap_id {D} _.
Arguments snap_data {D} _.
Arguments Build_Snapshot {D} _ _.

Definition snap_exists {D : Type} (s : Snapshot D) : bool :=
  match snap_data s with Some _ => true | None => false end.

(** ** Promises that resolve or reject, over the collaborators' state *)

Definition M (A : Type) : Type := World → (error + A) * World.

Definition ret {A : Type} (a : A) : M A := fun w => (inr a, w).
Definition throw {A : Type} (e : error) : M A := fun w => (inl e, w).

Definition bind {A B : Type} (m : M A) (k : A → M B) : M B :=
  fun w =>
    match m w with
    | (inl e, w') => (inl e, w')
    | (inr a, w') => k a w'
    end.

Notation "'await' x <- m ; k" := (bind m (fun x => k))
  (at level 10, x name, m at level 100, k at level 200).
Notation "m ;; k" := (bind m (fun _ => k))
  (at level 100, k at level 200, right associativity).

(** [try { m } catch (err) { h err }] *)
Definition try_catch {A : Type} (m : M A) (h : error → M A) : M A :=
  fun w =>
    match m w with
    | (inl e, w') => h e w'
    | (inr a, w') => (inr a, w')
    end.

(** A call to an async function whose promise is dropped: its effects on
    the store happen, its rejection reaches nobody. *)
Definition not_awaited {A : Type} (m : M A) : M unit :=
  fun w => (inr tt, snd (m w)).

(** [l.error(tag, err)] *)
Definition log_error (tag : string) (e : error) : M unit :=
  fun w => (inr tt, push_error tag e w).

(** ** The collaborators' replies during one call

    Each call runs against replies that the service does not control:
    whether the store answers a read or a write, what the gateway answers,
    what [nanoid()] returns and what the clock shows at each [new Date()].
    A store or gateway reply of [Some reason] / [inl reason] is a rejected
    promise. *)
Record CreateEnv : Type := {
  storage_get_reply : option string;
  gateway_reply : string + Order;
  nanoid : string;
  clock_fromDate : Z;
  clock_toDate : Z;
  booking_add_reply : string + string;
}.

Record VerifyEnv : Type := {
  booking_get_reply : option string;
  clock_paidAt : Z;
  booking_update_reply : option string;
}.

(** [Number.prototype.toString] on an integer (below 10^21 in size). *)
Definition number_toString (n : Z) : string := pretty n.

(** [update({ paid: true, paidAt })] on a booking document: the two
    fields are written, the others are kept. *)
Definition update_paid (at_ : Date) (b : Booking) : Booking :=
  {| storageId := storageId b; userId := userId b; userName := userName b;
     storageName := storageName b; image := image b; boxes := boxes b;
     amount := amount b; address := address b; phone := phone b;
     storageType := storageType b; orderId := orderId b;
     fromDate := fromDate b; toDate := toDate b;
     paid := true; paidAt := Some at_ |}.

(** [collection.doc(id).get()] *)
Definition doc_get {D : Type} (coll : World → gmap string D)
    (reply : option string) (id : string) : M (Snapshot D) :=
  fun w =>
    match reply with
    | Some reason => (inl (StoreError reason), w)
    | None => (inr {| snap_id := id; snap_data := coll w !! id |}, w)
    end.

(** [ref.update(fields)] on a booking: rejected by the store, or because
    the document is gone, or applied. *)
Definition doc_update (reply : option string) (id : string)
    (f : Booking → Booking) : M unit :=
  fun w =>
    match reply with
    | Some reason => (inl (StoreError reason), w)
    | None =>
        match bookings w !! id with
        | None => (inl (StoreError "NOT_FOUND"), w)
        | Some b => (inr tt, set_bookings (insert id (f b)) w)
        end
    end.

(** [bookingCollectionRef.add(doc)]: rejected, or stored under the
    identifier that the store generated. *)
Definition collection_add (reply : string + string) (b : Booking) : M string :=
  fun w =>
    match reply with
    | inl reason => (inl (StoreError reason), w)
    | inr id => (inr id, set_bookings (insert id b) w)
    end.

(** [storage.data().field]: [data()] is [undefined] for a missing document,
    and reading a property of [undefined] throws. *)
Definition data_field (storage : Snapshot StorageData) (field : string) : M jsval :=
  match snap_data storage with
  | None => throw (TypeError field)
  | Some d => ret (default JUndefined (d !! field))
  end.

(** [v[0]] where it has a value: on [undefined] and [null] the read throws
    ([None]). On a string it is the first code unit (the first byte here,
    which is the same for ASCII text). *)
Definition index0_value (v : jsval) : option jsval :=
  match v with
  | JUndefined | JNull => None
  | JBool _ | JNum _ => Some JUndefined
  | JStr EmptyString => Some JUndefined
  | JStr (String c _) => Some (JStr (String c ""))
  | JArr [] => Some JUndefined
  | JArr (x :: _) => Some x
  end.

Definition index0 (v : jsval) : M jsval :=
  match index0_value v with
  | None => throw (TypeError "0")
  | Some x => ret x
  end.

(** ** The service *)
Section BookingService.

(** [razorpayKeySecret] of [common/constants]. *)
Variable razorpayKeySecret : string.

Definition getBookingDocument (env : VerifyEnv) (bookingId : string)
    : M (Snapshot Booking) :=
  await booking <- doc_get bookings (booking_get_reply env) bookingId;
  ret booking.

Definition validateBooking (booking : Snapshot Booking) : M unit :=
  if negb (snap_exists booking)
  then throw (Thrown 402 "Order not found, please try again")
  else ret tt.

Definition getPaymentOrderId (razorpayOrderId razorpayPaymentId : string) : string :=
  razorpayOrderId +:+ "|" +:+ razorpayPaymentId.

Definition verifyPayment (booking : Snapshot Booking)
    (paymentOrderId razorpaySignature : string) : M unit :=
  let expectedSignature := Crypto.hmac_sha256_hex razorpayKeySecret paymentOrderId in
  if negb (String.eqb expectedSignature razorpaySignature)
  then throw (Thrown 402 "Payment verification failed")
  else ret tt.

Definition updateBookingPaymentStatus (env : VerifyEnv) (booking : Snapshot Booking)
    : M unit :=
  doc_update (booking_update_reply env) (snap_id booking)
    (update_paid (ValidDate (clock_paidAt env))).

(** The call to [updateBookingPaymentStatus] is not awaited: the reply
    does not wait for the write, nor learn of its failure. *)
Definition verifyBooking (env : VerifyEnv)
    (razorpayPaymentId razorpayOrderId razorpaySignature bookingId : string)
    : M string :=
  try_catch
    (await booking <- getBookingDocument env bookingId;
     validateBooking booking;;
     let paymentOrderId := getPaymentOrderId razorpayOrderId razorpayPaymentId in
     verifyPayment booking paymentOrderId razorpaySignature;;
     not_awaited (updateBookingPaymentStatus env booking);;
     ret "Payment successful")
    (fun err => log_error "[BOOKING: VERIFY BOOKING]" err;; throw err).

Definition getStorageInfo (env : CreateEnv) (storageId : string)
    : M (Snapshot StorageData) :=
  await storage <- doc_get storages (storage_get_reply env) storageId;
  ret storage.

Definition createRazorpayOrder (env : CreateEnv) (amount : Z) : M Order :=
  let request :=
    {| req_amount := number_toString (amount * 100);
       req_currency := "INR";
       req_receipt := nanoid env |} in
  fun w =>
    match gateway_reply env with
    | inl reason => (inl (GatewayError reason), push_order request w)
    | inr order => (inr order, push_order request w)
    end.

Definition addBookingToFirebase (env : CreateEnv)
    (userId storageId userName : string) (storage : Snapshot StorageData)
    (boxes amount : Z) (storageType : string) (order : Order) (duration : Z)
    : M string :=
  await name <- data_field storage "name";
  await images <- data_field storage "images";
  await image <-
    (if truthy images
     then await images' <- data_field storage "images"; index0 images'
     else ret (JStr ""));
  await address <- data_field storage "address";
  await phone <- data_field storage "phone";
  let fromDate := ValidDate (clock_fromDate env) in
  let toDate := newDate (clock_toDate env + duration * 7 * 24 * 60 * 60 * 1000) in
  await bookingDocumentRef <-
    collection_add (booking_add_reply env)
      {| storageId := storageId; userId := userId; userName := userName;
         storageName := name; image := image; boxes := boxes; amount := amount;
         address := address; phone := phone; storageType := storageType;
         orderId := order_id order; fromDate := fromDate; toDate := toDate;
         paid := false; paidAt := None |};
  ret bookingDocumentRef.

(** Returns [{ orderId, bookingId }]. *)
Definition createBooking (env : CreateEnv)
    (userId storageId : string) (boxes amount : Z) (storageType : string)
    (duration : Z) (userName : string) : M (string * string) :=
  try_catch
    (await storage <- getStorageInfo env storageId;
     await order <- createRazorpayOrder env amount;
     await bookingDocumentRef <-
       addBookingToFirebase env userId storageId userName storage boxes amount
         storageType order duration;
     ret (order_id order, bookingDocumentRef))
    (fun err => log_error "[BOOKING: CREATE BOOKING]" err;; throw err).

End BookingService.

(** The spec's names for the two objects that [verifyBooking] throws. *)
Definition NotFound : error := Thrown 402 "Order not found, please try again".
Definition PaymentVerificationFailed : error := Thrown 402 "Payment verification failed".

(** The HTTP status carried by an error, when it has one. *)
Definition status_of (e : error) : option Z :=
  match e with
  | Thrown status _ => Some status
  | _ => None
  end.

(** Every field but [paidAt] agrees. *)
Definition same_except_paidAt (b1 b2 : Booking) : Prop :=
  storageId b1 = storageId b2 ∧ userId b1 = userId b2 ∧ userName b1 = userName b2 ∧
  storageName b1 = storageName b2 ∧ image b1 = image b2 ∧ boxes b1 = boxes b2 ∧
  amount b1 = amount b2 ∧ address b1 = address b2 ∧ phone b1 = phone b2 ∧
  storageType b1 = storageType b2 ∧ orderId b1 = orderId b2 ∧
  fromDate b1 = fromDate b2 ∧ toDate b1 = toDate b2 ∧ paid b1 = paid b2.

(** The request that [createRazorpayOrder] sends. *)
Definition order_request (env : CreateEnv) (amt : Z) : OrderRequest :=
  {| req_amount := number_toString (amt * 100);
     req_currency := "INR";
     req_receipt := nanoid env |}.

(** The [image] that the object literal of [addBookingToFirebase] takes from
    the data of an existing storage document. *)
Definition snapshot_image (d : StorageData) : jsval :=
  let images := default JUndefined (d !! "images") in
  if truthy images then default JUndefined (index0_value images) else JStr "".

(** The document that [addBookingToFirebase] hands to the store when the
    storage document exists with data [d]. *)
Definition new_booking (env : CreateEnv) (uid sid uname : string) (d : StorageData)
    (nboxes amt : Z) (stype : string) (order : Order) (weeks : Z) : Booking :=
  {| storageId := sid; userId := uid; userName := uname;
     storageName := default JUndefined (d !! "name");
     image := snapshot_image d;
     boxes := nboxes; amount := amt;
     address := default JUndefined (d !! "address");
     phone := default JUndefined (d !! "phone");
     storageType := stype; orderId := order_id order;
     fromDate := ValidDate (clock_fromDate env);
     toDate := newDate (clock_toDate env + weeks * 7 * 24 * 60 * 60 * 1000);
     paid := false; paidAt := None |}.

(** ** Sequences of calls *)

(** A call of the flow, with the replies of the collaborators during it. *)
Inductive Call : Type :=
  | CreateBooking (env : CreateEnv) (uid sid : string) (nboxes amt : Z)
      (stype : string) (weeks : Z) (uname : string)
  | VerifyBooking (env : VerifyEnv) (pid oid sig id : string).

(** The state that a call leaves behind. *)
Definition run (secret : string) (c : Call) (w : World) : World :=
  match c with
  | CreateBooking env uid sid nboxes amt stype weeks uname =>
      snd (createBooking env uid sid nboxes amt stype weeks uname w)
  | VerifyBooking env pid oid sig id =>
      snd (verifyBooking secret env pid oid sig id w)
  end.

Fixpoint run_all (secret : string) (cs : list Call) (w : World) : World :=
  match cs with
  | [] => w
  | c :: cs' => run_all secret cs' (run secret c w)
  end.

(** The booking [id] is there and marked paid. *)
Definition paid_in (w : World) (id : string) : bool :=
  match bookings w !! id with
  | Some b => paid b
  | None => false
  end.

(** [c] is a [verifyBooking] call on booking [id] whose signature is the
    HMAC of its order and payment identifiers. *)
Definition verified_payment (secret : string) (c : Call) (id : string) : Prop :=
  match c with
  | CreateBooking _ _ _ _ _ _ _ _ => False
  | VerifyBooking _ pid oid sig id' =>
      id' = id ∧ Crypto.hmac_sha256_hex secret (oid +:+ "|" +:+ pid) = sig
  end.

(** The gateway is asked for an order of exactly the caller's amount. *)
Definition passes_amount_verbatim (env : CreateEnv) (uid sid : string)
    (nboxes amt : Z) (stype : string) (weeks : Z) (uname : string) (w : World) : Prop :=
  ∃ r, head (gateway_orders
               (snd (createBooking env uid sid nboxes amt stype weeks uname w)))
       = Some r
       ∧ req_amount r = number_toString amt.

(** ** A scenario to evaluate the service on *)
Module Scenario.

Definition secret : string := "s3cr3t".

Definition depot : StorageData :=
  {[ "name" := JStr "Depot"; "images" := JArr [JStr "a.png"; JStr "b.png"];
     "address" := JStr "1 Main St"; "phone" := JStr "555" ]}.

(** As [signupStorage] leaves a storage document: without [images]. *)
Definition bare_depot : StorageData :=
  {[ "name" := JStr "Shed"; "address" := JStr "2 Side St"; "phone" := JStr "556" ]}.

Definition world0 : World :=
  {| bookings := ∅;
     storages := {[ "prov1" := depot; "prov2" := bare_depot ]};
     gateway_orders := [];
     error_log := [] |}.

(** The clock moves on by a millisecond between the two [new Date()]. *)
Definition create_env : CreateEnv :=
  {| storage_get_reply := None;
     gateway_reply := inr {| order_id := "order_abc" |};
     nanoid := "V1StGXR8_Z5jdHi6B-myT";
     clock_fromDate := 1700000000000;
     clock_toDate := 1700000000001;
     booking_add_reply := inr "bk1" |}.

Definition gateway_down : CreateEnv :=
  {| storage_get_reply := None;
     gateway_reply := inl "BAD_REQUEST_ERROR";
     nanoid := "V1StGXR8_Z5jdHi6B-myT";
     clock_fromDate := 1700000000000;
     clock_toDate := 1700000000000;
     booking_add_reply := inr "bk1" |}.

Definition booking1 : Booking :=
  {| storageId := "prov1"; userId := "u1"; userName := "Ann";
     storageName := JStr "Depot"; image := JStr "a.png"; boxes := 3; amount := 5000;
     address := JStr "1 Main St"; phone := JStr "555"; storageType := "cold";
     orderId := "order_abc";
     fromDate := ValidDate 1700000000000; toDate := ValidDate 1702419200001;
     paid := false; paidAt := None |}.

(** The state after the booking of [create_env]. *)
Definition world1 : World :=
  {| bookings := {[ "bk1" := booking1 ]};
     storages := {[ "prov1" := depot; "prov2" := bare_depot ]};
     gateway_orders :=
       [{| req_amount := "500000"; req_currency := "INR";
           req_receipt := "V1StGXR8_Z5jdHi6B-myT" |}];
     error_log := [] |}.

Definition verify_env : VerifyEnv :=
  {| booking_get_reply := None;
     clock_paidAt := 1700000100000;
     booking_update_reply := None |}.

Definition verify_env' : VerifyEnv :=
  {| booking_get_reply := None;
     clock_paidAt := 1700000200000;
     booking_update_reply := None |}.

(** HMAC-SHA256 under [secret] of "order_abc|pay_123" and of
    "order_xyz|pay_123". *)
Definition sig_abc : string :=
  "070ea2f5813be979e4d4dd50f9840717bb01adf600c92662f401086c6cabbf9a".
Definition sig_xyz : string :=
  "6e120d8f9ef7b93cc52deaa70ac4c049507dc8573413781a3bb2f35d7b8bf453".

End Scenario.

(** ** More vocabulary for the booking flow *)

(** Every field but [paid] and [paidAt] agrees. *)
Definition same_core (b1 b2 : Booking) : Prop :=
  storageId b1 = storageId b2 ∧ userId b1 = userId b2 ∧ userName b1 = userName b2 ∧
  storageName b1 = storageName b2 ∧ image b1 = image b2 ∧ boxes b1 = boxes b2 ∧
  amount b1 = amount b2 ∧ address b1 = address b2 ∧ phone b1 = phone b2 ∧
  storageType b1 = storageType b2 ∧ orderId b1 = orderId b2 ∧
  fromDate b1 = fromDate b2 ∧ toDate b1 = toDate b2.

Definition is_verify (c : Call) : bool :=
  match c with
  | VerifyBooking _ _ _ _ _ => true
  | CreateBooking _ _ _ _ _ _ _ _ => false
  end.

(** The character is one of [0-9a-f]. *)
Definition lower_hex (c : ascii) : bool :=
  let n := Z.of_N (N_of_ascii c) in
  ((48 <=? n) && (n <=? 57)) || ((97 <=? n) && (n <=? 102)).

Fixpoint all_chars (p : ascii → bool) (s : string) : bool :=
  match s with
  | EmptyString => true
  | String c s' => p c && all_chars p s'
  end.

(** The character occurs in the string. *)
Fixpoint occurs (c : ascii) (s : string) : bool :=
  match s with
  | EmptyString => false
  | String c' s' => Ascii.eqb c c' || occurs c s'
  end.

(** ** The registration service ([AuthService])

    It works on the [users] collection and on the [storages] collection
    that the booking service reads, and logs to the same logger. *)

Record AuthState : Type := {
  users : gmap string (gmap string jsval);
  shared : World;
}.

Definition set_users
    (f : gmap string (gmap string jsval) → gmap string (gmap string jsval))
    (s : AuthState) : AuthState :=
  {| users := f (users s); shared := shared s |}.

Definition set_storages
    (f : gmap string StorageData → gmap string StorageData) (s : AuthState)
    : AuthState :=
  {| users := users s;
     shared := {| bookings := bookings (shared s);
                  storages := f (storages (shared s));
                  gateway_orders := gateway_orders (shared s);
                  error_log := error_log (shared s) |} |}.

Definition is_undefined (v : jsval) : bool :=
  match v with
  | JUndefined => true
  | _ => false
  end.

(** An object literal as a stored document: a property whose value is
    [undefined] is not stored (a store that refuses such an object rejects
    the write instead). *)
Definition document (fields : list (string * jsval)) : gmap string jsval :=
  list_to_map (List.filter (fun kv => negb (is_undefined (snd kv))) fields).

Declare Scope auth_scope.

Module AuthService.

(** The replies of the store and the clock during a sign-up, and the
    replies of the store during [getUser]. The [createdAt] timestamp of a
    document is held as its time value in milliseconds. *)
Record SignupEnv : Type := {
  set_reply : option string;
  clock_createdAt : Z;
}.

Record GetUserEnv : Type := {
  users_get_reply : option string;
  storages_get_reply : option string;
}.

Definition A (T : Type) : Type := AuthState → (error + T) * AuthState.

Definition ret {T : Type} (a : T) : A T := fun s => (inr a, s).
Definition throw {T : Type} (e : error) : A T := fun s => (inl e, s).

Definition bind {T U : Type} (m : A T) (k : T → A U) : A U :=
  fun s =>
    match m s with
    | (inl e, s') => (inl e, s')
    | (inr a, s') => k a s'
    end.

Notation "'await' x <- m ; k" := (bind m (fun x => k))
  (at level 10, x name, m at level 100, k at level 200) : auth_scope.
Notation "m ;; k" := (bind m (fun _ => k))
  (at level 100, k at level 200, right associativity) : auth_scope.

Local Open Scope auth_scope.

Definition try_catch {T : Type} (m : A T) (h : error → A T) : A T :=
  fun s =>
    match m s with
    | (inl e, s') => h e s'
    | (inr a, s') => (inr a, s')
    end.

Definition log_error (tag : string) (e : error) : A unit :=
  fun s => (inr tt, {| users := users s; shared := push_error tag e (shared s) |}).

(** [collection.doc(id).get()] *)
Definition doc_get (coll : AuthState → gmap string (gmap string jsval))
    (reply : option string) (id : string) : A (Snapshot (gmap string jsval)) :=
  fun s =>
    match reply with
    | Some reason => (inl (StoreError reason), s)
    | None => (inr {| snap_id := id; snap_data := coll s !! id |}, s)
    end.

(** [collection.doc(id).set(data)]: the document becomes [data], whatever
    it was before. *)
Definition doc_set
    (write : (gmap string (gmap string jsval) → gmap string (gmap string jsval))
             → AuthState → AuthState)
    (reply : option string) (id : string) (data : gmap string jsval) : A unit :=
  fun s =>
    match reply with
    | Some reason => (inl (StoreError reason), s)
    | None => (inr tt, write (insert id data) s)
    end.

Definition signupStorage (env : SignupEnv) (name phone email : jsval) (uid : string)
    (state city pincode address location aadhar pan : jsval) : A string :=
  try_catch
    (doc_set set_storages (set_reply env) uid
       (document
          [("name", name); ("phone", phone); ("state", state); ("city", city);
           ("email", email); ("pincode", pincode); ("address", address);
           ("location", location); ("aadhar", aadhar); ("pan", pan);
           ("createdAt", JNum (clock_createdAt env))]);;
     ret "Storage registered successfully")
    (fun error => log_error "[SIGNUP SERVICE STORAGE]" error;; throw error).

Definition getUser (env : GetUserEnv) (uid : string) : A (gmap string jsval) :=
  try_catch
    (await user <- doc_get users (users_get_reply env) uid;
     match snap_data user with
     | Some data => ret data
     | None =>
         await storage <- doc_get (fun s => storages (shared s))
                            (storages_get_reply env) uid;
         match snap_data storage with
         | Some dataToReturn => ret (<["isStorage" := JBool true]> dataToReturn)
         | None => throw (Thrown 402 "User not found")
         end
     end)
    (fun error => log_error "[GET USER]" error;; throw error).

Definition signupUser (env : SignupEnv) (name phone email : jsval) (uid : string)
    (state city : jsval) : A string :=
  try_catch
    (doc_set set_users (set_reply env) uid
       (document
          [("name", name); ("phone", phone); ("state", state); ("city", city);
           ("email", email); ("createdAt", JNum (clock_createdAt env))]);;
     ret "User registered successfully")
    (fun error => log_error "[SIGNUP SERVICE USER]" error;; throw error).

Definition registerUser (env : SignupEnv) (name phone email : jsval) (uid : string)
    (state city pincode address location aadhar pan : jsval) : A string :=
  if truthy pincode && truthy address && truthy location && truthy aadhar
     && truthy pan
  then signupStorage env name phone email uid state city pincode address location
         aadhar pan
  else signupUser env name phone email uid state city.

End AuthService.

(** A scenario for the registration service. *)
Module AuthScenario.

Definition signup_env : AuthService.SignupEnv :=
  {| AuthService.set_reply := None; AuthService.clock_createdAt := 1690000000000 |}.

Definition get_env : AuthService.GetUserEnv :=
  {| AuthService.users_get_reply := None; AuthService.storages_get_reply := None |}.

(** The storage "prov1" has images, and "prov1" is nobody's user id. *)
Definition state0 : AuthState := {| users := ∅; shared := Scenario.world0 |}.

Definition ann : gmap string jsval :=
  {[ "name" := JStr "Ann"; "phone" := JStr "557"; "state" := JStr "KA";
     "city" := JStr "Mysuru"; "email" := JStr "ann@example.com";
     "createdAt" := JNum 1680000000000 ]}.

(** "prov1" is both a user and a storage. *)
Definition state_both : AuthState :=
  {| users := {[ "prov1" := ann ]}; shared := Scenario.world0 |}.

End AuthScenario.

Arguments Crypto.hmac_sha256_hex : simpl never.
Arguments number_toString : simpl never.

(** ** The HMAC on published test vectors *)

Example sha256_abc :
  Crypto.sha256_hex "abc"
  = "ba7816bf8f01cfea414140de5dae2223b00361a396177a9cb410ff61f20015ad".
Proof. vm_compute. reflexivity. Qed.

Example sha256_empty :
  Crypto.sha256_hex ""
  = "e3b0c44298fc1c149afbf4c8996fb92427ae41e4649b934ca495991b7852b855".
Proof. vm_compute. reflexivity. Qed.

Example sha256_two_blocks :
  Crypto.sha256_hex "abcdbcdecdefdefgefghfghighijhijkijkljklmklmnlmnomnopnopq"
  = "248d6a61d20638b8e5c026930c3e6039a33ce45964ff2167f6ecedd419db06c1".
Proof. vm_compute. reflexivity. Qed.

Example hmac_rfc4231_case2 :
  Crypto.hmac_sha256_hex "Jefe" "what do ya want for nothing?"
  = "5bdcc146bf60754e6a042426089575c75a003f089d2739839dec58b964ec3843".
Proof. vm_compute. reflexivity. Qed.

Example hmac_long_key :
  Crypto.hmac_sha256_hex
    "kkkkkkkkkkkkkkkkkkkkkkkkkkkkkkkkkkkkkkkkkkkkkkkkkkkkkkkkkkkkkkkkkkkkkk"
    "mmmmmmmmmmmmmmmmmmmmmmmmmmmmmmmmmmmmmmmmmmmmmmmmmmmmmmmmmmmmmmmmmmmmmmmmmmmmmmmmmmmmmmmmmmmmmmmmmmmmmmmmmmmmmmmmmmmmmmmmmmmmmmmmmm"
  = "1ac6b4fbc8b160b48837dcb6380947d9cccdcc8814d7c3d9561e33bd84cb7884".
Proof. vm_compute. reflexivity. Qed.

Example hmac_spec_scenario :
  Crypto.hmac_sha256_hex "s3cr3t" "order_abc|pay_123"
  = "070ea2f5813be979e4d4dd50f9840717bb01adf600c92662f401086c6cabbf9a".
Proof. vm_compute. reflexivity. Qed.

(** ** The paths of [verifyBooking] *)
Section VerifyBookingPaths.

Variable secret : string.
Variables (env : VerifyEnv) (pid oid sig id : string) (w : World).

Let expected : string := Crypto.hmac_sha256_hex secret (oid +:+ "|" +:+ pid).
Let tag : string := "[BOOKING: VERIFY BOOKING]".

Ltac run_verify :=
  unfold verifyBooking, try_catch, bind, getBookingDocument, doc_get,
    validateBooking, verifyPayment, getPaymentOrderId, not_awaited,
    updateBookingPaymentStatus, doc_update, log_error, throw, ret, snap_exists.

Lemma verifyBooking_store_rejects reason :
  booking_get_reply env = Some reason →
  verifyBooking secret env pid oid sig id w
  = (inl (StoreError reason), push_error tag (StoreError reason) w).
Proof. intros Hget. run_verify. rewrite Hget. reflexivity. Qed.

Lemma verifyBooking_missing :
  booking_get_reply env = None →
  bookings w !! id = None →
  verifyBooking secret env pid oid sig id w = (inl NotFound, push_error tag NotFound w).
Proof. intros Hget Hid. run_verify. rewrite Hget. simpl. rewrite Hid. reflexivity. Qed.

Lemma verifyBooking_mismatch b :
  booking_get_reply env = None →
  bookings w !! id = Some b →
  expected ≠ sig →
  verifyBooking secret env pid oid sig id w
  = (inl PaymentVerificationFailed, push_error tag PaymentVerificationFailed w).
Proof.
  intros Hget Hid Hsig. run_verify. rewrite Hget. simpl. rewrite Hid. simpl.
  apply String.eqb_neq in Hsig. subst expected. rewrite Hsig. reflexivity.
Qed.

Lemma verifyBooking_match b :
  booking_get_reply env = None →
  bookings w !! id = Some b →
  expected = sig →
  verifyBooking secret env pid oid sig id w
  = (inr "Payment successful",
     match booking_update_reply env with
     | Some _ => w
     | None =>
         set_bookings (insert id (update_paid (ValidDate (clock_paidAt env)) b)) w
     end).
Proof.
  intros Hget Hid Hsig. run_verify. rewrite Hget. simpl. rewrite Hid. simpl.
  apply String.eqb_eq in Hsig. subst expected. rewrite Hsig. simpl.
  destruct (booking_update_reply env); [reflexivity|].
  rewrite Hid. reflexivity.
Qed.

(** The same path when the store takes the write. *)
Lemma verifyBooking_written b :
  booking_get_reply env = None →
  booking_update_reply env = None →
  bookings w !! id = Some b →
  expected = sig →
  verifyBooking secret env pid oid sig id w
  = (inr "Payment successful",
     set_bookings (insert id (update_paid (ValidDate (clock_paidAt env)) b)) w).
Proof.
  intros Hget Hupd Hid Hsig. rewrite (verifyBooking_match b Hget Hid Hsig), Hupd.
  reflexivity.
Qed.

(** A reply of success means that the signature was the expected one and
    that the booking was there. *)
Lemma verifyBooking_success_inv msg :
  fst (verifyBooking secret env pid oid sig id w) = inr msg →
  expected = sig ∧ is_Some (bookings w !! id) ∧ booking_get_reply env = None.
Proof.
  destruct (booking_get_reply env) as [reason|] eqn:Hget.
  { rewrite (verifyBooking_store_rejects reason Hget). discriminate. }
  destruct (bookings w !! id) as [b|] eqn:Hid.
  2:{ rewrite (verifyBooking_missing Hget Hid). discriminate. }
  destruct (decide (expected = sig)) as [Heq|Hne].
  - intros _. eauto.
  - rewrite (verifyBooking_mismatch b Hget Hid Hne). discriminate.
Qed.

(** Whatever the outcome, a call touches no booking but [id], and leaves
    the storages and the gateway alone. *)
Lemma verifyBooking_frame id' :
  id' ≠ id →
  bookings (snd (verifyBooking secret env pid oid sig id w)) !! id' = bookings w !! id'.
Proof.
  intros Hne.
  destruct (booking_get_reply env) as [reason|] eqn:Hget.
  { rewrite (verifyBooking_store_rejects reason Hget). reflexivity. }
  destruct (bookings w !! id) as [b|] eqn:Hid.
  2:{ rewrite (verifyBooking_missing Hget Hid). reflexivity. }
  destruct (decide (expected = sig)) as [Heq|Hneq].
  - rewrite (verifyBooking_match b Hget Hid Heq).
    destruct (booking_update_reply env); [reflexivity|].
    simpl. rewrite lookup_insert_ne; [reflexivity|congruence].
  - rewrite (verifyBooking_mismatch b Hget Hid Hneq). reflexivity.
Qed.

(** The bookings after a call: as before, or with the booking [id] marked
    paid on a matching signature. *)
Lemma verifyBooking_bookings :
  bookings (snd (verifyBooking secret env pid oid sig id w)) = bookings w ∨
  (expected = sig ∧
   ∃ b, bookings w !! id = Some b ∧
        bookings (snd (verifyBooking secret env pid oid sig id w))
        = <[id := update_paid (ValidDate (clock_paidAt env)) b]> (bookings w)).
Proof.
  destruct (booking_get_reply env) as [reason|] eqn:Hget.
  { rewrite (verifyBooking_store_rejects reason Hget). left. reflexivity. }
  destruct (bookings w !! id) as [b|] eqn:Hid.
  2:{ rewrite (verifyBooking_missing Hget Hid). left. reflexivity. }
  destruct (decide (expected = sig)) as [Heq|Hneq].
  - rewrite (verifyBooking_match b Hget Hid Heq).
    destruct (booking_update_reply env); [left; reflexivity|].
    right. split; [exact Heq|]. exists b. split; reflexivity.
  - rewrite (verifyBooking_mismatch b Hget Hid Hneq). left. reflexivity.
Qed.

End VerifyBookingPaths.

(** ** The paths of [createBooking] *)

Lemma truthy_index0 v : truthy v = true → is_Some (index0_value v).
Proof. destruct v as [| | | |[|c s]|[|x l]]; simpl; eauto; discriminate. Qed.

Section CreateBookingPaths.

Variables (env : CreateEnv) (uid sid : string) (nboxes amt : Z) (stype : string)
          (weeks : Z) (uname : string) (w : World).

Let tag : string := "[BOOKING: CREATE BOOKING]".
Let sent : World := push_order (order_request env amt) w.

Ltac run_create :=
  unfold createBooking, try_catch, bind, getStorageInfo, doc_get,
    createRazorpayOrder, log_error, throw, ret.

Lemma addBookingToFirebase_missing order w' :
  addBookingToFirebase env uid sid uname {| snap_id := sid; snap_data := None |}
    nboxes amt stype order weeks w'
  = (inl (TypeError "name"), w').
Proof. reflexivity. Qed.

Lemma addBookingToFirebase_exists d order w' :
  addBookingToFirebase env uid sid uname {| snap_id := sid; snap_data := Some d |}
    nboxes amt stype order weeks w'
  = collection_add (booking_add_reply env)
      (new_booking env uid sid uname d nboxes amt stype order weeks) w'.
Proof.
  unfold addBookingToFirebase, new_booking, snapshot_image, bind, data_field, ret.
  simpl. destruct (truthy (default JUndefined (d !! "images"))) eqn:Himg.
  - destruct (truthy_index0 _ Himg) as [x Hx]. unfold index0, ret.
    rewrite Hx. simpl. destruct (collection_add _ _ w') as [[e|r] w'']; reflexivity.
  - simpl. destruct (collection_add _ _ w') as [[e|r] w'']; reflexivity.
Qed.

Lemma createBooking_store_rejects reason :
  storage_get_reply env = Some reason →
  createBooking env uid sid nboxes amt stype weeks uname w
  = (inl (StoreError reason), push_error tag (StoreError reason) w).
Proof. intros Hget. run_create. rewrite Hget. reflexivity. Qed.

Lemma createBooking_gateway_rejects reason :
  storage_get_reply env = None →
  gateway_reply env = inl reason →
  createBooking env uid sid nboxes amt stype weeks uname w
  = (inl (GatewayError reason), push_error tag (GatewayError reason) sent).
Proof. intros Hget Hgw. run_create. rewrite Hget. simpl. rewrite Hgw. reflexivity. Qed.

Lemma createBooking_storage_missing order :
  storage_get_reply env = None →
  gateway_reply env = inr order →
  storages w !! sid = None →
  createBooking env uid sid nboxes amt stype weeks uname w
  = (inl (TypeError "name"), push_error tag (TypeError "name") sent).
Proof.
  intros Hget Hgw Hsid. run_create. rewrite Hget. simpl. rewrite Hgw, Hsid.
  rewrite addBookingToFirebase_missing. reflexivity.
Qed.

Lemma createBooking_add_rejects order d reason :
  storage_get_reply env = None →
  gateway_reply env = inr order →
  storages w !! sid = Some d →
  booking_add_reply env = inl reason →
  createBooking env uid sid nboxes amt stype weeks uname w
  = (inl (StoreError reason), push_error tag (StoreError reason) sent).
Proof.
  intros Hget Hgw Hsid Hadd. run_create. rewrite Hget. simpl. rewrite Hgw, Hsid.
  rewrite addBookingToFirebase_exists. unfold collection_add. rewrite Hadd.
  reflexivity.
Qed.

Lemma createBooking_persists order d bid :
  storage_get_reply env = None →
  gateway_reply env = inr order →
  storages w !! sid = Some d →
  booking_add_reply env = inr bid →
  createBooking env uid sid nboxes amt stype weeks uname w
  = (inr (order_id order, bid),
     set_bookings
       (insert bid (new_booking env uid sid uname d nboxes amt stype order weeks))
       sent).
Proof.
  intros Hget Hgw Hsid Hadd. run_create. rewrite Hget. simpl. rewrite Hgw, Hsid.
  rewrite addBookingToFirebase_exists. unfold collection_add. rewrite Hadd.
  reflexivity.
Qed.

(** A reply of success means that the call went down the last path. *)
Lemma createBooking_success_inv oid' bid :
  fst (createBooking env uid sid nboxes amt stype weeks uname w) = inr (oid', bid) →
  ∃ order d,
    storage_get_reply env = None ∧ gateway_reply env = inr order ∧
    storages w !! sid = Some d ∧ booking_add_reply env = inr bid ∧
    oid' = order_id order.
Proof.
  destruct (storage_get_reply env) as [r|] eqn:Hget.
  { rewrite (createBooking_store_rejects r Hget). discriminate. }
  destruct (gateway_reply env) as [r|order] eqn:Hgw.
  { rewrite (createBooking_gateway_rejects r Hget Hgw). discriminate. }
  destruct (storages w !! sid) as [d|] eqn:Hsid.
  2:{ rewrite (createBooking_storage_missing order Hget Hgw Hsid). discriminate. }
  destruct (booking_add_reply env) as [r|bid'] eqn:Hadd.
  { rewrite (createBooking_add_rejects order d r Hget Hgw Hsid Hadd). discriminate. }
  rewrite (createBooking_persists order d bid' Hget Hgw Hsid Hadd). simpl.
  intros [= <- <-]. eauto 10.
Qed.

(** Unless it replies with success, the call leaves the bookings as they
    were. *)
Lemma createBooking_failure_keeps_bookings e :
  fst (createBooking env uid sid nboxes amt stype weeks uname w) = inl e →
  bookings (snd (createBooking env uid sid nboxes amt stype weeks uname w)) = bookings w.
Proof.
  destruct (storage_get_reply env) as [r|] eqn:Hget.
  { rewrite (createBooking_store_rejects r Hget). reflexivity. }
  destruct (gateway_reply env) as [r|order] eqn:Hgw.
  { rewrite (createBooking_gateway_rejects r Hget Hgw). reflexivity. }
  destruct (storages w !! sid) as [d|] eqn:Hsid.
  2:{ rewrite (createBooking_storage_missing order Hget Hgw Hsid). reflexivity. }
  destruct (booking_add_reply env) as [r|bid'] eqn:Hadd.
  { rewrite (createBooking_add_rejects order d r Hget Hgw Hsid Hadd). reflexivity. }
  rewrite (createBooking_persists order d bid' Hget Hgw Hsid Hadd). discriminate.
Qed.

(** Once the storage has been read, one request reaches the gateway,
    however the call ends. *)
Lemma createBooking_gateway_orders :
  storage_get_reply env = None →
  gateway_orders (snd (createBooking env uid sid nboxes amt stype weeks uname w))
  = order_request env amt :: gateway_orders w.
Proof.
  intros Hget.
  destruct (gateway_reply env) as [r|order] eqn:Hgw.
  { rewrite (createBooking_gateway_rejects r Hget Hgw). reflexivity. }
  destruct (storages w !! sid) as [d|] eqn:Hsid.
  2:{ rewrite (createBooking_storage_missing order Hget Hgw Hsid). reflexivity. }
  destruct (booking_add_reply env) as [r|bid'] eqn:Hadd.
  { rewrite (createBooking_add_rejects order d r Hget Hgw Hsid Hadd). reflexivity. }
  rewrite (createBooking_persists order d bid' Hget Hgw Hsid Hadd). reflexivity.
Qed.

End CreateBookingPaths.

(** ** Payment verification *)

(** C1. A successful [verifyBooking] was given, as signature, the hex
    HMAC-SHA256 of [orderId + "|" + paymentId] under the secret key. On an
    existing booking that the store hands over, the converse holds too:
    the call succeeds exactly when the signature is that digest, and with
    any other signature it throws [{ status: 402, message: "Payment
    verification failed" }]. *)
Theorem verifyBooking_succeeds_iff_signature
    (secret : string) (env : VerifyEnv) (pid oid sig id : string) (w : World) :
  let expected := Crypto.hmac_sha256_hex secret (oid +:+ "|" +:+ pid) in
  let reply := fst (verifyBooking secret env pid oid sig id w) in
  ((∃ msg, reply = inr msg) → expected = sig) ∧
  (booking_get_reply env = None →
   is_Some (bookings w !! id) →
   ((∃ msg, reply = inr msg) ↔ expected = sig) ∧
   (expected ≠ sig →
    reply = inl (Thrown 402 "Payment verification failed") ∧
    status_of (Thrown 402 "Payment verification failed") = Some 402)).
Proof.
  intros expected reply. subst reply.
  assert (Honly : (∃ msg, fst (verifyBooking secret env pid oid sig id w) = inr msg)
                  → expected = sig).
  { intros [msg Hmsg]. apply (verifyBooking_success_inv _ _ _ _ _ _ _ _ Hmsg). }
  split; [exact Honly|]. intros Hget [b Hid]. split; [split; [exact Honly|]|].
  - intros Hsig. rewrite (verifyBooking_match _ _ _ _ _ _ _ b Hget Hid Hsig). eauto.
  - intros Hsig. rewrite (verifyBooking_mismatch _ _ _ _ _ _ _ b Hget Hid Hsig).
    split; reflexivity.
Qed.

Lemma verifyBooking_succeeds_iff_signature_witness :
  booking_get_reply Scenario.verify_env = None ∧
  is_Some (bookings Scenario.world1 !! "bk1") ∧
  (∃ msg,
     fst (verifyBooking Scenario.secret Scenario.verify_env "pay_123" "order_abc"
            Scenario.sig_abc "bk1" Scenario.world1) = inr msg) ∧
  fst (verifyBooking Scenario.secret Scenario.verify_env "pay_123" "order_abc"
         "deadbeef" "bk1" Scenario.world1)
  = inl (Thrown 402 "Payment verification failed").
Proof.
  assert (Hget : booking_get_reply Scenario.verify_env = None) by reflexivity.
  assert (Hid : is_Some (bookings Scenario.world1 !! "bk1"))
    by (exists Scenario.booking1; vm_compute; reflexivity).
  split; [exact Hget|]. split; [exact Hid|]. split.
  - apply (verifyBooking_succeeds_iff_signature Scenario.secret Scenario.verify_env
             "pay_123" "order_abc" Scenario.sig_abc "bk1" Scenario.world1);
      [exact Hget | exact Hid | vm_compute; reflexivity].
  - apply (verifyBooking_succeeds_iff_signature Scenario.secret Scenario.verify_env
             "pay_123" "order_abc" "deadbeef" "bk1" Scenario.world1);
      [exact Hget | exact Hid | vm_compute; discriminate].
Defined.

(** C3. The order identifier stored on the booking plays no part: for an
    existing booking and any order identifier, payment identifier and
    signature with a valid HMAC, [verifyBooking] succeeds and the booking
    is marked paid, whatever its own [orderId]. *)
Theorem verifyBooking_ignores_stored_orderId
    (secret : string) (env : VerifyEnv) (pid oid sig id : string)
    (w : World) (b : Booking) :
  booking_get_reply env = None →
  booking_update_reply env = None →
  bookings w !! id = Some b →
  Crypto.hmac_sha256_hex secret (oid +:+ "|" +:+ pid) = sig →
  let r := verifyBooking secret env pid oid sig id w in
  fst r = inr "Payment successful" ∧
  ∃ b', bookings (snd r) !! id = Some b' ∧ paid b' = true ∧
        b' = update_paid (ValidDate (clock_paidAt env)) b.
Proof.
  intros Hget Hupd Hid Hsig r. subst r.
  rewrite (verifyBooking_written _ _ _ _ _ _ _ b Hget Hupd Hid Hsig). simpl.
  split; [reflexivity|]. eexists. rewrite lookup_insert_eq. eauto.
Qed.

Lemma verifyBooking_ignores_stored_orderId_witness :
  orderId Scenario.booking1 ≠ "order_xyz" ∧
  fst (verifyBooking Scenario.secret Scenario.verify_env "pay_123" "order_xyz"
         Scenario.sig_xyz "bk1" Scenario.world1) = inr "Payment successful" ∧
  paid_in (snd (verifyBooking Scenario.secret Scenario.verify_env "pay_123"
                  "order_xyz" Scenario.sig_xyz "bk1" Scenario.world1)) "bk1" = true.
Proof.
  split; [discriminate|].
  destruct (verifyBooking_ignores_stored_orderId Scenario.secret Scenario.verify_env
              "pay_123" "order_xyz" Scenario.sig_xyz "bk1" Scenario.world1
              Scenario.booking1)
    as [Hreply (b' & Hb' & Hpaid & _)];
    [reflexivity | reflexivity | vm_compute; reflexivity | vm_compute; reflexivity |].
  split; [exact Hreply|]. unfold paid_in. rewrite Hb'. exact Hpaid.
Defined.

(** C4. For a booking identifier under which the store holds nothing,
    [verifyBooking] throws [{ status: 402, message: "Order not found,
    please try again" }] whatever the payment identifier, order identifier
    and signature are, and writes no booking. *)
Theorem verifyBooking_unknown_booking
    (secret : string) (env : VerifyEnv) (pid oid sig id : string) (w : World) :
  booking_get_reply env = None →
  bookings w !! id = None →
  let r := verifyBooking secret env pid oid sig id w in
  fst r = inl (Thrown 402 "Order not found, please try again") ∧
  status_of (Thrown 402 "Order not found, please try again") = Some 402 ∧
  bookings (snd r) = bookings w.
Proof.
  intros Hget Hid r. subst r.
  rewrite (verifyBooking_missing _ _ _ _ _ _ _ Hget Hid). repeat split.
Qed.

Lemma verifyBooking_unknown_booking_witness :
  bookings Scenario.world1 !! "bk2" = None ∧
  Crypto.hmac_sha256_hex Scenario.secret ("order_abc" +:+ "|" +:+ "pay_123")
  = Scenario.sig_abc ∧
  fst (verifyBooking Scenario.secret Scenario.verify_env "pay_123" "order_abc"
         Scenario.sig_abc "bk2" Scenario.world1)
  = inl (Thrown 402 "Order not found, please try again").
Proof.
  assert (Hid : bookings Scenario.world1 !! "bk2" = None) by (vm_compute; reflexivity).
  split; [exact Hid|]. split; [vm_compute; reflexivity|].
  apply (verifyBooking_unknown_booking Scenario.secret Scenario.verify_env
           "pay_123" "order_abc" Scenario.sig_abc "bk2" Scenario.world1);
    [reflexivity | exact Hid].
Defined.

(** C9. Two [verifyBooking] calls in a row on the same existing booking,
    each with a correct signature and with the store taking the writes,
    both succeed; the booking is paid after the first and after the
    second, and the second changes nothing but [paidAt], on this booking
    or any other. *)
Theorem verifyBooking_twice
    (secret : string) (env1 env2 : VerifyEnv)
    (pid1 oid1 sig1 pid2 oid2 sig2 id : string) (w : World) (b : Booking) :
  booking_get_reply env1 = None → booking_update_reply env1 = None →
  booking_get_reply env2 = None → booking_update_reply env2 = None →
  bookings w !! id = Some b →
  Crypto.hmac_sha256_hex secret (oid1 +:+ "|" +:+ pid1) = sig1 →
  Crypto.hmac_sha256_hex secret (oid2 +:+ "|" +:+ pid2) = sig2 →
  let r1 := verifyBooking secret env1 pid1 oid1 sig1 id w in
  let r2 := verifyBooking secret env2 pid2 oid2 sig2 id (snd r1) in
  fst r1 = inr "Payment successful" ∧
  fst r2 = inr "Payment successful" ∧
  ∃ b1 b2,
    bookings (snd r1) !! id = Some b1 ∧ paid b1 = true ∧
    bookings (snd r2) !! id = Some b2 ∧ paid b2 = true ∧
    same_except_paidAt b1 b2 ∧
    paidAt b2 = Some (ValidDate (clock_paidAt env2)) ∧
    ∀ id', id' ≠ id → bookings (snd r2) !! id' = bookings (snd r1) !! id'.
Proof.
  intros Hget1 Hupd1 Hget2 Hupd2 Hid Hsig1 Hsig2 r1 r2.
  set (b1 := update_paid (ValidDate (clock_paidAt env1)) b).
  assert (Hr1 : r1 = (inr "Payment successful", set_bookings (insert id b1) w))
    by (apply verifyBooking_written; assumption).
  assert (Hb1 : bookings (snd r1) !! id = Some b1)
    by (rewrite Hr1; apply lookup_insert_eq).
  set (b2 := update_paid (ValidDate (clock_paidAt env2)) b1).
  assert (Hr2 : r2 = (inr "Payment successful", set_bookings (insert id b2) (snd r1)))
    by (apply verifyBooking_written; assumption).
  split; [rewrite Hr1; reflexivity|]. split; [rewrite Hr2; reflexivity|].
  exists b1, b2. split; [exact Hb1|]. split; [reflexivity|].
  split; [rewrite Hr2; apply lookup_insert_eq|]. split; [reflexivity|].
  split; [repeat split|]. split; [reflexivity|].
  intros id' Hne. rewrite Hr2. simpl. apply lookup_insert_ne. congruence.
Qed.

Lemma verifyBooking_twice_witness :
  let r1 := verifyBooking Scenario.secret Scenario.verify_env "pay_123" "order_abc"
              Scenario.sig_abc "bk1" Scenario.world1 in
  let r2 := verifyBooking Scenario.secret Scenario.verify_env' "pay_123" "order_abc"
              Scenario.sig_abc "bk1" (snd r1) in
  fst r1 = inr "Payment successful" ∧ fst r2 = inr "Payment successful" ∧
  paid_in (snd r1) "bk1" = true ∧ paid_in (snd r2) "bk1" = true.
Proof.
  intros r1 r2.
  destruct (verifyBooking_twice Scenario.secret Scenario.verify_env
              Scenario.verify_env' "pay_123" "order_abc" Scenario.sig_abc
              "pay_123" "order_abc" Scenario.sig_abc "bk1" Scenario.world1
              Scenario.booking1)
    as (H1 & H2 & b1 & b2 & Hb1 & Hp1 & Hb2 & Hp2 & _);
    [reflexivity | reflexivity | reflexivity | reflexivity
    | vm_compute; reflexivity | vm_compute; reflexivity | vm_compute; reflexivity |].
  subst r1 r2. split; [exact H1|]. split; [exact H2|]. unfold paid_in. split.
  - rewrite Hb1. exact Hp1.
  - rewrite Hb2. exact Hp2.
Defined.

(** ** Booking creation *)

(** C5. When the gateway rejects the order, [createBooking] rejects with
    the gateway's error and the bookings are what they were. *)
Theorem createBooking_gateway_failure
    (env : CreateEnv) (uid sid : string) (nboxes amt : Z) (stype : string)
    (weeks : Z) (uname : string) (w : World) (reason : string) :
  storage_get_reply env = None →
  gateway_reply env = inl reason →
  let r := createBooking env uid sid nboxes amt stype weeks uname w in
  fst r = inl (GatewayError reason) ∧ bookings (snd r) = bookings w.
Proof.
  intros Hget Hgw r. subst r.
  rewrite (createBooking_gateway_rejects _ _ _ _ _ _ _ _ _ reason Hget Hgw).
  split; reflexivity.
Qed.

Lemma createBooking_gateway_failure_witness :
  gateway_reply Scenario.gateway_down = inl "BAD_REQUEST_ERROR" ∧
  fst (createBooking Scenario.gateway_down "u1" "prov1" 3 5000 "cold" 4 "Ann"
         Scenario.world0) = inl (GatewayError "BAD_REQUEST_ERROR") ∧
  bookings (snd (createBooking Scenario.gateway_down "u1" "prov1" 3 5000 "cold" 4
                   "Ann" Scenario.world0)) = ∅.
Proof.
  split; [reflexivity|].
  apply (createBooking_gateway_failure Scenario.gateway_down "u1" "prov1" 3 5000
           "cold" 4 "Ann" Scenario.world0 "BAD_REQUEST_ERROR"); reflexivity.
Defined.

(** C6, as the claim has it, fails: for an amount of 5000 the gateway is
    asked for an order of "500000". *)
Lemma createBooking_amount_not_verbatim :
  ¬ passes_amount_verbatim Scenario.create_env "u1" "prov1" 3 5000 "cold" 4 "Ann"
      Scenario.world0.
Proof.
  intros [r [Hr Hamount]]. vm_compute in Hr. injection Hr as <-.
  vm_compute in Hamount. discriminate.
Qed.

(** C6, amended. Once the storage has been read, [createBooking] sends the
    gateway one order request: its amount is the decimal string of a
    hundred times the caller's amount, its currency is "INR" and its
    receipt what [nanoid()] returned; the request has no other field.
    (Stated for amounts whose hundredfold is a safe integer, where the
    product and its decimal string are exact.) *)
Theorem createBooking_gateway_amount
    (env : CreateEnv) (uid sid : string) (nboxes amt : Z) (stype : string)
    (weeks : Z) (uname : string) (w : World) :
  storage_get_reply env = None →
  Z.abs (amt * 100) ≤ 9007199254740991 →
  gateway_orders (snd (createBooking env uid sid nboxes amt stype weeks uname w))
  = {| req_amount := number_toString (amt * 100);
       req_currency := "INR";
       req_receipt := nanoid env |} :: gateway_orders w.
Proof. intros Hget _. apply createBooking_gateway_orders. exact Hget. Qed.

Lemma createBooking_gateway_amount_witness :
  Z.abs (5000 * 100) ≤ 9007199254740991 ∧
  gateway_orders (snd (createBooking Scenario.create_env "u1" "prov1" 3 5000 "cold"
                         4 "Ann" Scenario.world0))
  = [{| req_amount := "500000"; req_currency := "INR";
        req_receipt := "V1StGXR8_Z5jdHi6B-myT" |}].
Proof.
  split; [lia|].
  apply (createBooking_gateway_amount Scenario.create_env "u1" "prov1" 3 5000 "cold"
           4 "Ann" Scenario.world0); [reflexivity | lia].
Defined.

(** The date range of a stored booking: the weeks asked for, plus what the
    clock moved between the two [new Date()] of the object literal. *)
Lemma createBooking_date_range
    (env : CreateEnv) (uid sid : string) (nboxes amt : Z) (stype : string)
    (weeks : Z) (uname : string) (w : World)
    (order : Order) (d : StorageData) (bid : string) :
  storage_get_reply env = None →
  gateway_reply env = inr order →
  storages w !! sid = Some d →
  booking_add_reply env = inr bid →
  Z.abs (clock_toDate env + weeks * 7 * 24 * 60 * 60 * 1000) ≤ 8640000000000000 →
  ∃ b,
    bookings (snd (createBooking env uid sid nboxes amt stype weeks uname w)) !! bid
    = Some b ∧
    paid b = false ∧
    date_diff (toDate b) (fromDate b)
    = Some (weeks * 7 * 86400000 + (clock_toDate env - clock_fromDate env)).
Proof.
  intros Hget Hgw Hsid Hadd Hrange.
  rewrite (createBooking_persists _ _ _ _ _ _ _ _ _ order d bid Hget Hgw Hsid Hadd).
  eexists. split; [apply lookup_insert_eq|]. split; [reflexivity|].
  simpl. unfold newDate.
  destruct (Z.leb_spec (Z.abs (clock_toDate env + weeks * 7 * 24 * 60 * 60 * 1000))
              8640000000000000) as [_|Hgt]; [|lia].
  simpl. f_equal. lia.
Qed.

(** C7, at an input where the clock ticks between the two readings: the
    booking of four weeks is stored unpaid, and its range is four weeks
    and one millisecond. *)
Lemma createBooking_range_off_by_clock :
  ∃ b,
    bookings (snd (createBooking Scenario.create_env "u1" "prov1" 3 5000 "cold" 4
                     "Ann" Scenario.world0)) !! "bk1" = Some b ∧
    paid b = false ∧
    date_diff (toDate b) (fromDate b) = Some (4 * 7 * 86400000 + 1) ∧
    date_diff (toDate b) (fromDate b) ≠ Some (4 * 7 * 86400000).
Proof.
  exists Scenario.booking1. split; [vm_compute; reflexivity|].
  split; [reflexivity|]. split; [reflexivity|]. vm_compute. discriminate.
Qed.

(** C8, at a storage identifier under which the store holds nothing: the
    call rejects with a [TypeError] (no status), after the gateway has
    been asked for the order; no booking is written. *)
Lemma createBooking_unknown_storage_TypeError :
  storages Scenario.world0 !! "nobody" = None ∧
  fst (createBooking Scenario.create_env "u1" "nobody" 3 5000 "cold" 4 "Ann"
         Scenario.world0) = inl (TypeError "name") ∧
  status_of (TypeError "name") = None ∧
  bookings (snd (createBooking Scenario.create_env "u1" "nobody" 3 5000 "cold" 4
                   "Ann" Scenario.world0)) = bookings Scenario.world0 ∧
  gateway_orders (snd (createBooking Scenario.create_env "u1" "nobody" 3 5000 "cold"
                         4 "Ann" Scenario.world0))
  = [{| req_amount := "500000"; req_currency := "INR";
        req_receipt := "V1StGXR8_Z5jdHi6B-myT" |}].
Proof. repeat split; vm_compute; reflexivity. Qed.

(** C10. The [image] of a new booking is the first element, [images[0]],
    of the storage's [images] array where the storage has one ([undefined]
    for an array without elements), and the empty string where the storage
    document has no [images] field. *)
Theorem createBooking_image
    (env : CreateEnv) (uid sid : string) (nboxes amt : Z) (stype : string)
    (weeks : Z) (uname : string) (w : World)
    (order : Order) (d : StorageData) (bid : string) :
  storage_get_reply env = None →
  gateway_reply env = inr order →
  storages w !! sid = Some d →
  booking_add_reply env = inr bid →
  ∃ b,
    bookings (snd (createBooking env uid sid nboxes amt stype weeks uname w)) !! bid
    = Some b ∧
    (∀ elems, d !! "images" = Some (JArr elems) →
              image b = default JUndefined (head elems)) ∧
    (d !! "images" = None → image b = JStr "").
Proof.
  intros Hget Hgw Hsid Hadd.
  rewrite (createBooking_persists _ _ _ _ _ _ _ _ _ order d bid Hget Hgw Hsid Hadd).
  eexists. split; [apply lookup_insert_eq|]. simpl. unfold snapshot_image. split.
  - intros elems Himg. rewrite Himg. destruct elems; reflexivity.
  - intros Himg. rewrite Himg. reflexivity.
Qed.

Lemma createBooking_image_witness :
  Scenario.depot !! "images" = Some (JArr [JStr "a.png"; JStr "b.png"]) ∧
  ∃ b,
    bookings (snd (createBooking Scenario.create_env "u1" "prov1" 3 5000 "cold" 4
                     "Ann" Scenario.world0)) !! "bk1" = Some b ∧
    image b = JStr "a.png".
Proof.
  assert (Himg : Scenario.depot !! "images" = Some (JArr [JStr "a.png"; JStr "b.png"]))
    by (vm_compute; reflexivity).
  split; [exact Himg|].
  destruct (createBooking_image Scenario.create_env "u1" "prov1" 3 5000 "cold" 4
              "Ann" Scenario.world0 {| order_id := "order_abc" |} Scenario.depot "bk1")
    as (b & Hb & Hfirst & _);
    [reflexivity | reflexivity | vm_compute; reflexivity | reflexivity |].
  exists b. split; [exact Hb|]. exact (Hfirst _ Himg).
Defined.

(** The two cases beside the claim: a storage as [signupStorage] leaves it
    gives the empty string, and an empty array gives [undefined]. *)
Example createBooking_image_without_images :
  image <$> bookings (snd (createBooking Scenario.create_env "u1" "prov2" 3 5000
                             "cold" 4 "Ann" Scenario.world0)) !! "bk1"
  = Some (JStr "").
Proof. vm_compute. reflexivity. Qed.

Example snapshot_image_empty_array :
  snapshot_image {[ "images" := JArr [] ]} = JUndefined.
Proof. vm_compute. reflexivity. Qed.

(** ** The [paid] field over sequences of calls *)

(** A successful [createBooking] stores its booking unpaid. *)
Lemma createBooking_stores_unpaid
    (env : CreateEnv) (uid sid : string) (nboxes amt : Z) (stype : string)
    (weeks : Z) (uname : string) (w : World) (oid bid : string) :
  fst (createBooking env uid sid nboxes amt stype weeks uname w) = inr (oid, bid) →
  ∃ b,
    bookings (snd (createBooking env uid sid nboxes amt stype weeks uname w)) !! bid
    = Some b ∧ paid b = false ∧ paidAt b = None.
Proof.
  intros Hok.
  destruct (createBooking_success_inv _ _ _ _ _ _ _ _ _ _ _ Hok)
    as (order & d & Hget & Hgw & Hsid & Hadd & _).
  rewrite (createBooking_persists _ _ _ _ _ _ _ _ _ order d bid Hget Hgw Hsid Hadd).
  eexists. split; [apply lookup_insert_eq|]. split; reflexivity.
Qed.

(** A call leaves a booking paid only if it was paid already, or if the
    call is a [verifyBooking] on it with a valid signature. *)
Lemma run_paid_step (secret : string) (c : Call) (w : World) (id : string) :
  paid_in (run secret c w) id = true →
  paid_in w id = true ∨
  (verified_payment secret c id ∧ ∃ b, bookings w !! id = Some b ∧ paid b = false).
Proof.
  destruct c as [env uid sid nboxes amt stype weeks uname | env pid oid sig id0];
    simpl; unfold paid_in.
  - destruct (fst (createBooking env uid sid nboxes amt stype weeks uname w))
      as [e|[oid bid]] eqn:Hres.
    + rewrite (createBooking_failure_keeps_bookings _ _ _ _ _ _ _ _ _ e Hres). auto.
    + destruct (createBooking_success_inv _ _ _ _ _ _ _ _ _ _ _ Hres)
        as (order & d & Hget & Hgw & Hsid & Hadd & _).
      rewrite (createBooking_persists _ _ _ _ _ _ _ _ _ order d bid Hget Hgw Hsid Hadd).
      simpl. destruct (decide (bid = id)) as [->|Hne].
      * rewrite lookup_insert_eq. discriminate.
      * rewrite lookup_insert_ne by exact Hne. auto.
  - destruct (verifyBooking_bookings secret env pid oid sig id0 w)
      as [-> | (Hsig & b & Hb & ->)]; [auto|].
    destruct (decide (id0 = id)) as [->|Hne].
    + intros _. destruct (paid b) eqn:Hpaid.
      * left. rewrite Hb. exact Hpaid.
      * right. eauto.
    + rewrite lookup_insert_ne by exact Hne. auto.
Qed.

(** A booking that is paid after a sequence of calls was paid before it,
    or the sequence has a [verifyBooking] with a valid signature that
    found the booking unpaid. *)
Lemma run_all_paid (secret : string) (cs : list Call) (w : World) (id : string) :
  paid_in (run_all secret cs w) id = true →
  paid_in w id = true ∨
  ∃ cs1 c cs2,
    cs = (cs1 ++ c :: cs2)%list ∧ verified_payment secret c id ∧
    ∃ b, bookings (run_all secret cs1 w) !! id = Some b ∧ paid b = false.
Proof.
  revert w. induction cs as [|c cs IH]; intros w; simpl; [auto|].
  intros Hpaid. destruct (IH _ Hpaid) as [Hstep | (cs1 & c' & cs2 & -> & Hc' & Hb)].
  - destruct (run_paid_step _ _ _ _ Hstep) as [Hw | [Hc Hb]]; [auto|].
    right. exists [], c, cs. auto.
  - right. exists (c :: cs1), c', cs2. auto.
Qed.

(** C2. A booking is unpaid when [createBooking] stores it; a call turns
    [paid] from false to true only if it is a [verifyBooking] on that
    booking whose signature is the valid HMAC; and from a state without
    paid bookings, every booking that is paid after a sequence of calls
    owes it to such a call in the sequence, which found it unpaid. *)
Theorem paid_only_by_verified_payment (secret : string) :
  (∀ env uid sid nboxes amt stype weeks uname w oid bid,
     fst (createBooking env uid sid nboxes amt stype weeks uname w) = inr (oid, bid) →
     ∃ b,
       bookings (snd (createBooking env uid sid nboxes amt stype weeks uname w)) !! bid
       = Some b ∧ paid b = false) ∧
  (∀ c w id,
     paid_in w id = false →
     paid_in (run secret c w) id = true →
     verified_payment secret c id ∧ ∃ b, bookings w !! id = Some b ∧ paid b = false) ∧
  (∀ cs w0 id,
     (∀ i, paid_in w0 i = false) →
     paid_in (run_all secret cs w0) id = true →
     ∃ cs1 c cs2,
       cs = (cs1 ++ c :: cs2)%list ∧ verified_payment secret c id ∧
       ∃ b, bookings (run_all secret cs1 w0) !! id = Some b ∧ paid b = false).
Proof.
  split; [|split].
  - intros env uid sid nboxes amt stype weeks uname w oid bid Hok.
    destruct (createBooking_stores_unpaid _ _ _ _ _ _ _ _ _ _ _ Hok) as (b & Hb & Hp & _).
    eauto.
  - intros c w id Hbefore Hafter.
    destruct (run_paid_step _ _ _ _ Hafter) as [Hw|Hc]; [congruence|exact Hc].
  - intros cs w0 id Hinit Hpaid.
    destruct (run_all_paid _ _ _ _ Hpaid) as [Hw|Hc]; [|exact Hc].
    rewrite Hinit in Hw. discriminate.
Qed.

Lemma paid_only_by_verified_payment_witness :
  let create := CreateBooking Scenario.create_env "u1" "prov1" 3 5000 "cold" 4 "Ann" in
  let forged := VerifyBooking Scenario.verify_env "pay_123" "order_abc" "deadbeef" "bk1" in
  let verify :=
    VerifyBooking Scenario.verify_env' "pay_123" "order_abc" Scenario.sig_abc "bk1" in
  paid_in (run_all Scenario.secret [create; forged; verify] Scenario.world0) "bk1" = true ∧
  ∃ cs1 c cs2,
    [create; forged; verify] = (cs1 ++ c :: cs2)%list ∧
    verified_payment Scenario.secret c "bk1" ∧
    paid_in (run_all Scenario.secret cs1 Scenario.world0) "bk1" = false.
Proof.
  intros create forged verify.
  assert (Hpaid : paid_in (run_all Scenario.secret [create; forged; verify]
                             Scenario.world0) "bk1" = true)
    by (vm_compute; reflexivity).
  split; [exact Hpaid|].
  destruct (paid_only_by_verified_payment Scenario.secret) as (_ & _ & Htrace).
  destruct (Htrace [create; forged; verify] Scenario.world0 "bk1")
    as (cs1 & c & cs2 & Hcs & Hc & b & Hb & Hunpaid);
    [intros i; reflexivity | exact Hpaid |].
  exists cs1, c, cs2. split; [exact Hcs|]. split; [exact Hc|].
  unfold paid_in. rewrite Hb. exact Hunpaid.
Defined.

(** ** More on payment verification *)

(** X1. When the store rejects the update that [verifyBooking] starts and
    does not await, the call still replies with success: the state is what
    it was, so the booking is not marked paid and nothing is logged. *)
Theorem verifyBooking_success_without_write
    (secret : string) (env : VerifyEnv) (pid oid sig id : string)
    (w : World) (b : Booking) (reason : string) :
  booking_get_reply env = None →
  bookings w !! id = Some b →
  Crypto.hmac_sha256_hex secret (oid +:+ "|" +:+ pid) = sig →
  booking_update_reply env = Some reason →
  verifyBooking secret env pid oid sig id w = (inr "Payment successful", w).
Proof.
  intros Hget Hid Hsig Hupd.
  rewrite (verifyBooking_match _ _ _ _ _ _ _ b Hget Hid Hsig), Hupd. reflexivity.
Qed.

Lemma verifyBooking_success_without_write_witness :
  let env := {| booking_get_reply := None; clock_paidAt := 1700000100000;
                booking_update_reply := Some "UNAVAILABLE" |} in
  let r := verifyBooking Scenario.secret env "pay_123" "order_abc" Scenario.sig_abc
             "bk1" Scenario.world1 in
  fst r = inr "Payment successful" ∧ paid_in (snd r) "bk1" = false.
Proof.
  intros env r. subst r.
  rewrite (verifyBooking_success_without_write Scenario.secret env "pay_123"
             "order_abc" Scenario.sig_abc "bk1" Scenario.world1 Scenario.booking1
             "UNAVAILABLE");
    [ split; vm_compute; reflexivity
    | reflexivity | vm_compute; reflexivity | vm_compute; reflexivity | reflexivity ].
Defined.

(** X2. A [verifyBooking] that rejects changes nothing but the log, to
    which it adds one entry: its tag and the error it rejects with. One
    that succeeds logs nothing. Neither touches the storages or the
    gateway. *)
Theorem verifyBooking_rejection_only_logs
    (secret : string) (env : VerifyEnv) (pid oid sig id : string) (w : World) :
  let r := verifyBooking secret env pid oid sig id w in
  (∀ e, fst r = inl e → snd r = push_error "[BOOKING: VERIFY BOOKING]" e w) ∧
  (∀ msg, fst r = inr msg → error_log (snd r) = error_log w) ∧
  storages (snd r) = storages w ∧
  gateway_orders (snd r) = gateway_orders w.
Proof.
  intros r. subst r.
  destruct (booking_get_reply env) as [reason|] eqn:Hget.
  { rewrite (verifyBooking_store_rejects _ _ _ _ _ _ _ reason Hget). simpl.
    repeat split; [intros e [= <-]; reflexivity | discriminate]. }
  destruct (bookings w !! id) as [b|] eqn:Hid.
  2:{ rewrite (verifyBooking_missing _ _ _ _ _ _ _ Hget Hid). simpl.
      repeat split; [intros e [= <-]; reflexivity | discriminate]. }
  destruct (decide (Crypto.hmac_sha256_hex secret (oid +:+ "|" +:+ pid) = sig))
    as [Heq|Hne].
  - rewrite (verifyBooking_match _ _ _ _ _ _ _ b Hget Hid Heq). simpl.
    destruct (booking_update_reply env); repeat split; discriminate.
  - rewrite (verifyBooking_mismatch _ _ _ _ _ _ _ b Hget Hid Hne). simpl.
    repeat split; [intros e [= <-]; reflexivity | discriminate].
Qed.

Lemma verifyBooking_rejection_only_logs_witness :
  let r := verifyBooking Scenario.secret Scenario.verify_env "pay_123" "order_abc"
             "deadbeef" "bk1" Scenario.world1 in
  fst r = inl (Thrown 402 "Payment verification failed") ∧
  snd r = push_error "[BOOKING: VERIFY BOOKING]"
            (Thrown 402 "Payment verification failed") Scenario.world1.
Proof.
  intros r.
  assert (Hr : fst r = inl (Thrown 402 "Payment verification failed"))
    by (vm_compute; reflexivity).
  split; [exact Hr|].
  destruct (verifyBooking_rejection_only_logs Scenario.secret Scenario.verify_env
              "pay_123" "order_abc" "deadbeef" "bk1" Scenario.world1) as [Hrej _].
  exact (Hrej _ Hr).
Defined.

(** One [verifyBooking] keeps every booking, creates none, keeps every
    field but [paid] and [paidAt], and never takes [paid] back. *)
Lemma verifyBooking_keeps_core
    (secret : string) (env : VerifyEnv) (pid oid sig id : string) (w : World)
    (id' : string) :
  match bookings w !! id' with
  | Some b =>
      ∃ b', bookings (snd (verifyBooking secret env pid oid sig id w)) !! id' = Some b'
            ∧ same_core b b' ∧ (paid b = true → paid b' = true)
  | None => bookings (snd (verifyBooking secret env pid oid sig id w)) !! id' = None
  end.
Proof.
  destruct (verifyBooking_bookings secret env pid oid sig id w)
    as [-> | (_ & b0 & Hb0 & ->)].
  - destruct (bookings w !! id') as [b|]; [|reflexivity].
    exists b. repeat split; auto.
  - destruct (decide (id = id')) as [<-|Hne].
    + rewrite Hb0, lookup_insert_eq. eexists. split; [reflexivity|].
      repeat split.
    + rewrite lookup_insert_ne by exact Hne.
      destruct (bookings w !! id') as [b|]; [|reflexivity].
      exists b. repeat split; auto.
Qed.

(** X3. Over any sequence of [verifyBooking] calls, whatever their
    arguments and outcomes: a booking that was there is still there with
    every field but [paid] and [paidAt] as it was, a booking that was paid
    is still paid, and no booking has appeared. *)
Theorem verifyBooking_calls_keep_bookings
    (secret : string) (cs : list Call) (w : World) (id : string) :
  Forall (fun c => is_verify c = true) cs →
  match bookings w !! id with
  | Some b =>
      ∃ b', bookings (run_all secret cs w) !! id = Some b'
            ∧ same_core b b' ∧ (paid b = true → paid b' = true)
  | None => bookings (run_all secret cs w) !! id = None
  end.
Proof.
  intros Hcs. revert w. induction Hcs as [|c cs Hc _ IH]; intros w; simpl.
  - destruct (bookings w !! id) as [b|]; [|reflexivity].
    exists b. repeat split; auto.
  - destruct c as [|env pid oid sig id0]; [discriminate|]. simpl.
    pose proof (verifyBooking_keeps_core secret env pid oid sig id0 w id) as Hstep.
    specialize (IH (snd (verifyBooking secret env pid oid sig id0 w))).
    destruct (bookings w !! id) as [b|].
    + destruct Hstep as (b1 & Hb1 & Hcore1 & Hpaid1). rewrite Hb1 in IH.
      destruct IH as (b' & Hb' & Hcore & Hpaid). exists b'.
      split; [exact Hb'|]. split; [|auto].
      unfold same_core in *. intuition congruence.
    + rewrite Hstep in IH. exact IH.
Qed.

Lemma verifyBooking_calls_keep_bookings_witness :
  let cs := [VerifyBooking Scenario.verify_env "pay_123" "order_abc" Scenario.sig_abc
               "bk1";
             VerifyBooking Scenario.verify_env' "pay_9" "order_9" "deadbeef" "bk1";
             VerifyBooking Scenario.verify_env' "pay_9" "order_9" "deadbeef" "bk7"] in
  paid_in (run_all Scenario.secret cs Scenario.world1) "bk1" = true ∧
  bookings (run_all Scenario.secret cs Scenario.world1) !! "bk7" = None.
Proof.
  intros cs.
  assert (Hcs : Forall (fun c => is_verify c = true) cs)
    by (repeat constructor).
  split.
  - vm_compute. reflexivity.
  - exact (verifyBooking_calls_keep_bookings Scenario.secret cs Scenario.world1 "bk7"
             Hcs).
Defined.

(** *** The signed message *)

Lemma string_app_assoc (s1 s2 s3 : string) :
  (s1 +:+ s2) +:+ s3 = s1 +:+ (s2 +:+ s3).
Proof.
  induction s1 as [|c s1 IH]; [reflexivity|].
  change (String c ((s1 +:+ s2) +:+ s3) = String c (s1 +:+ (s2 +:+ s3))).
  rewrite IH. reflexivity.
Qed.

Lemma getPaymentOrderId_nil (p : string) :
  getPaymentOrderId "" p = String "|" p.
Proof. reflexivity. Qed.

Lemma getPaymentOrderId_cons (c : ascii) (o p : string) :
  getPaymentOrderId (String c o) p = String c (getPaymentOrderId o p).
Proof. reflexivity. Qed.

(** X4. For order identifiers without the character "|", the message
    [orderId + "|" + paymentId] determines both identifiers: two pairs
    with the same message are the same pair. *)
Theorem getPaymentOrderId_injective (oid1 pid1 oid2 pid2 : string) :
  occurs "|" oid1 = false →
  occurs "|" oid2 = false →
  getPaymentOrderId oid1 pid1 = getPaymentOrderId oid2 pid2 →
  oid1 = oid2 ∧ pid1 = pid2.
Proof.
  revert oid2. induction oid1 as [|c1 o1 IH]; intros [|c2 o2] H1 H2 Heq.
  - rewrite !getPaymentOrderId_nil in Heq. injection Heq as ->. split; reflexivity.
  - rewrite getPaymentOrderId_nil, getPaymentOrderId_cons in Heq.
    injection Heq as <- _. simpl in H2. discriminate.
  - rewrite getPaymentOrderId_nil, getPaymentOrderId_cons in Heq.
    injection Heq as -> _. simpl in H1. discriminate.
  - rewrite !getPaymentOrderId_cons in Heq. injection Heq as -> Heq.
    simpl in H1, H2. apply orb_false_iff in H1 as [_ H1].
    apply orb_false_iff in H2 as [_ H2].
    destruct (IH o2 H1 H2 Heq) as [-> ->]. split; reflexivity.
Qed.

Lemma getPaymentOrderId_injective_witness :
  occurs "|" "order_abc" = false ∧
  ∀ oid pid,
    occurs "|" oid = false →
    getPaymentOrderId oid pid = "order_abc|pay_123" →
    oid = "order_abc" ∧ pid = "pay_123".
Proof.
  split; [reflexivity|]. intros oid pid Hoid Heq.
  apply (getPaymentOrderId_injective oid pid "order_abc" "pay_123");
    [exact Hoid | reflexivity | exact Heq].
Defined.

(** X5. The message does not say where the order identifier ends: the
    order "a|b" with the payment "c" and the order "a" with the payment
    "b|c" are verified alike, with the same reply and the same effect for
    the same signature. *)
Theorem verifyBooking_delimiter_shift
    (secret : string) (env : VerifyEnv) (a b c sig id : string) (w : World) :
  verifyBooking secret env c (a +:+ "|" +:+ b) sig id w
  = verifyBooking secret env (b +:+ "|" +:+ c) a sig id w.
Proof.
  unfold verifyBooking, getPaymentOrderId.
  replace ((a +:+ "|" +:+ b) +:+ "|" +:+ c) with (a +:+ "|" +:+ b +:+ "|" +:+ c);
    [reflexivity|].
  rewrite (string_app_assoc a ("|" +:+ b) ("|" +:+ c)). f_equal.
Qed.

(** *** The shape of a signature *)

Lemma hex_length (bs : list Z) : String.length (Crypto.hex bs) = (2 * length bs)%nat.
Proof. induction bs as [|b bs IH]; simpl; [reflexivity|]. rewrite IH. lia. Qed.

Lemma hex_digit_lower (d : Z) : 0 ≤ d < 16 → lower_hex (Crypto.hex_digit d) = true.
Proof.
  intros Hd.
  assert (Hcases : d = 0 ∨ d = 1 ∨ d = 2 ∨ d = 3 ∨ d = 4 ∨ d = 5 ∨ d = 6 ∨ d = 7 ∨
                   d = 8 ∨ d = 9 ∨ d = 10 ∨ d = 11 ∨ d = 12 ∨ d = 13 ∨ d = 14 ∨
                   d = 15) by lia.
  repeat (destruct Hcases as [->|Hcases]; [reflexivity|]). subst d. reflexivity.
Qed.

Lemma hex_lower (bs : list Z) :
  Forall (fun b => 0 ≤ b < 256) bs → all_chars lower_hex (Crypto.hex bs) = true.
Proof.
  induction 1 as [|b bs Hb _ IH]; simpl; [reflexivity|].
  rewrite IH, !hex_digit_lower; [reflexivity | |].
  - pose proof (Z.mod_pos_bound b 16). lia.
  - split; [apply Z.div_pos; lia | apply Z.div_lt_upper_bound; lia].
Qed.

Lemma sha256_bytes (msg : list Z) :
  length (Crypto.sha256 msg) = 32%nat ∧
  Forall (fun b => 0 ≤ b < 256) (Crypto.sha256 msg).
Proof.
  unfold Crypto.sha256. cbv zeta.
  destruct (Crypto.blocks _ Crypto.init _) as [[[[[[[a b] c] d] e] f] g] h].
  cbn [flat_map Crypto.be_bytes app]. split; [reflexivity|].
  repeat constructor; apply Z.mod_pos_bound; lia.
Qed.

(** The digest is sixty-four characters of [0-9a-f]. *)
Lemma hmac_sha256_hex_shape (key msg : string) :
  String.length (Crypto.hmac_sha256_hex key msg) = 64%nat ∧
  all_chars lower_hex (Crypto.hmac_sha256_hex key msg) = true.
Proof.
  unfold Crypto.hmac_sha256_hex, Crypto.hmac_sha256. cbv zeta.
  match goal with |- context [Crypto.hex (Crypto.sha256 ?m)] =>
    destruct (sha256_bytes m) as [Hlen Hrange] end.
  split; [rewrite hex_length, Hlen; reflexivity | apply hex_lower; exact Hrange].
Qed.

(** X6. A signature that is not sixty-four characters long, or that has a
    character other than [0-9a-f] (an upper-case hex digit, say), is
    refused on every existing booking, whatever the key and the
    identifiers. *)
Theorem verifyBooking_refuses_malformed_signature
    (secret : string) (env : VerifyEnv) (pid oid sig id : string) (w : World) :
  booking_get_reply env = None →
  is_Some (bookings w !! id) →
  String.length sig ≠ 64%nat ∨ all_chars lower_hex sig = false →
  fst (verifyBooking secret env pid oid sig id w)
  = inl (Thrown 402 "Payment verification failed").
Proof.
  intros Hget [b Hid] Hbad.
  rewrite (verifyBooking_mismatch _ _ _ _ _ _ _ b Hget Hid); [reflexivity|].
  intros <-. destruct (hmac_sha256_hex_shape secret (oid +:+ "|" +:+ pid))
    as [Hlen Hchars].
  destruct Hbad as [Hbad|Hbad]; congruence.
Qed.

Lemma verifyBooking_refuses_malformed_signature_witness :
  let upper := "070EA2F5813BE979E4D4DD50F9840717BB01ADF600C92662F401086C6CABBF9A" in
  String.length upper = 64%nat ∧ all_chars lower_hex upper = false ∧
  fst (verifyBooking Scenario.secret Scenario.verify_env "pay_123" "order_abc" upper
         "bk1" Scenario.world1)
  = inl (Thrown 402 "Payment verification failed").
Proof.
  intros upper. split; [reflexivity|]. split; [reflexivity|].
  apply (verifyBooking_refuses_malformed_signature Scenario.secret
           Scenario.verify_env "pay_123" "order_abc" upper "bk1" Scenario.world1);
    [ reflexivity
    | exists Scenario.booking1; vm_compute; reflexivity
    | right; reflexivity ].
Defined.

(** ** More on booking creation *)

(** X7. A [createBooking] that rejects adds one entry to the log, its tag
    and the error it rejects with, and leaves the bookings as they were;
    one that succeeds logs nothing. Neither changes a storage document. *)
Theorem createBooking_rejection_logs_once
    (env : CreateEnv) (uid sid : string) (nboxes amt : Z) (stype : string)
    (weeks : Z) (uname : string) (w : World) :
  let r := createBooking env uid sid nboxes amt stype weeks uname w in
  (∀ e, fst r = inl e →
        error_log (snd r) = ("[BOOKING: CREATE BOOKING]", e) :: error_log w ∧
        bookings (snd r) = bookings w) ∧
  (∀ res, fst r = inr res → error_log (snd r) = error_log w) ∧
  storages (snd r) = storages w.
Proof.
  intros r. subst r.
  destruct (storage_get_reply env) as [reason|] eqn:Hget.
  { rewrite (createBooking_store_rejects _ _ _ _ _ _ _ _ _ reason Hget). simpl.
    repeat split; try discriminate; injection H as <-; reflexivity. }
  destruct (gateway_reply env) as [reason|order] eqn:Hgw.
  { rewrite (createBooking_gateway_rejects _ _ _ _ _ _ _ _ _ reason Hget Hgw). simpl.
    repeat split; try discriminate; injection H as <-; reflexivity. }
  destruct (storages w !! sid) as [d|] eqn:Hsid.
  2:{ rewrite (createBooking_storage_missing _ _ _ _ _ _ _ _ _ order Hget Hgw Hsid).
      simpl. repeat split; try discriminate; injection H as <-; reflexivity. }
  destruct (booking_add_reply env) as [reason|bid] eqn:Hadd.
  { rewrite (createBooking_add_rejects _ _ _ _ _ _ _ _ _ order d reason Hget Hgw Hsid
               Hadd). simpl.
    repeat split; try discriminate; injection H as <-; reflexivity. }
  rewrite (createBooking_persists _ _ _ _ _ _ _ _ _ order d bid Hget Hgw Hsid Hadd).
  simpl. repeat split; discriminate.
Qed.

Lemma createBooking_rejection_logs_once_witness :
  let r := createBooking Scenario.gateway_down "u1" "prov1" 3 5000 "cold" 4 "Ann"
             Scenario.world0 in
  fst r = inl (GatewayError "BAD_REQUEST_ERROR") ∧
  error_log (snd r) = [("[BOOKING: CREATE BOOKING]", GatewayError "BAD_REQUEST_ERROR")].
Proof.
  intros r.
  assert (Hr : fst r = inl (GatewayError "BAD_REQUEST_ERROR")) by reflexivity.
  split; [exact Hr|].
  destruct (createBooking_rejection_logs_once Scenario.gateway_down "u1" "prov1" 3
              5000 "cold" 4 "Ann" Scenario.world0) as [Hrej _].
  exact (proj1 (Hrej _ Hr)).
Defined.

(** X8. When the store rejects the read of the storage, [createBooking]
    rejects with the store's error before the gateway is asked for
    anything: no order is requested and no booking is written. *)
Theorem createBooking_unreadable_storage
    (env : CreateEnv) (uid sid : string) (nboxes amt : Z) (stype : string)
    (weeks : Z) (uname : string) (w : World) (reason : string) :
  storage_get_reply env = Some reason →
  let r := createBooking env uid sid nboxes amt stype weeks uname w in
  fst r = inl (StoreError reason) ∧
  gateway_orders (snd r) = gateway_orders w ∧
  bookings (snd r) = bookings w.
Proof.
  intros Hget r. subst r.
  rewrite (createBooking_store_rejects _ _ _ _ _ _ _ _ _ reason Hget).
  repeat split.
Qed.

Lemma createBooking_unreadable_storage_witness :
  let env := {| storage_get_reply := Some "UNAVAILABLE";
                gateway_reply := inr {| order_id := "order_abc" |};
                nanoid := "V1StGXR8_Z5jdHi6B-myT";
                clock_fromDate := 1700000000000; clock_toDate := 1700000000000;
                booking_add_reply := inr "bk1" |} in
  let r := createBooking env "u1" "prov1" 3 5000 "cold" 4 "Ann" Scenario.world0 in
  fst r = inl (StoreError "UNAVAILABLE") ∧ gateway_orders (snd r) = [].
Proof.
  intros env r.
  destruct (createBooking_unreadable_storage env "u1" "prov1" 3 5000 "cold" 4 "Ann"
              Scenario.world0 "UNAVAILABLE") as (Hr & Horders & _); [reflexivity|].
  split; [exact Hr | exact Horders].
Defined.



(** X10. What a successful [createBooking] returns is what it stored: the
    order identifier is the one the gateway gave and the one on the
    booking found under the returned booking identifier; that booking
    carries the caller's arguments as given, the storage's [name],
    [address] and [phone] as the storage document has them at that moment,
    and no [paidAt]. *)
Theorem createBooking_returns_what_it_stored
    (env : CreateEnv) (uid sid : string) (nboxes amt : Z) (stype : string)
    (weeks : Z) (uname : string) (w : World) (oid bid : string) :
  fst (createBooking env uid sid nboxes amt stype weeks uname w) = inr (oid, bid) →
  ∃ d b,
    storages w !! sid = Some d ∧
    gateway_reply env = inr {| order_id := oid |} ∧
    bookings (snd (createBooking env uid sid nboxes amt stype weeks uname w)) !! bid
    = Some b ∧
    orderId b = oid ∧ userId b = uid ∧ storageId b = sid ∧ userName b = uname ∧
    boxes b = nboxes ∧ amount b = amt ∧ storageType b = stype ∧
    storageName b = default JUndefined (d !! "name") ∧
    address b = default JUndefined (d !! "address") ∧
    phone b = default JUndefined (d !! "phone") ∧
    fromDate b = ValidDate (clock_fromDate env) ∧
    paidAt b = None.
Proof.
  intros Hok.
  destruct (createBooking_success_inv _ _ _ _ _ _ _ _ _ _ _ Hok)
    as ([oid'] & d & Hget & Hgw & Hsid & Hadd & ->).
  rewrite (createBooking_persists _ _ _ _ _ _ _ _ _ _ d bid Hget Hgw Hsid Hadd).
  exists d. eexists. split; [exact Hsid|]. split; [exact Hgw|].
  split; [apply lookup_insert_eq|]. repeat split.
Qed.

Lemma createBooking_returns_what_it_stored_witness :
  let r := createBooking Scenario.create_env "u1" "prov1" 3 5000 "cold" 4 "Ann"
             Scenario.world0 in
  fst r = inr ("order_abc", "bk1") ∧
  ∃ b, bookings (snd r) !! "bk1" = Some b ∧ orderId b = "order_abc" ∧
       storageName b = JStr "Depot".
Proof.
  intros r.
  assert (Hr : fst r = inr ("order_abc", "bk1")) by (vm_compute; reflexivity).
  split; [exact Hr|].
  destruct (createBooking_returns_what_it_stored Scenario.create_env "u1" "prov1" 3
              5000 "cold" 4 "Ann" Scenario.world0 "order_abc" "bk1" Hr)
    as (d & b & Hd & _ & Hb & Hoid & _ & _ & _ & _ & _ & _ & Hname & _).
  exists b. split; [exact Hb|]. split; [exact Hoid|].
  rewrite Hname. vm_compute in Hd. injection Hd as <-. vm_compute. reflexivity.
Defined.

(** X11. The duration is not checked: for a duration of no weeks or of a
    negative number of weeks (and a clock that moves less than that
    between the two readings), the booking is stored all the same, with a
    [toDate] that is not after its [fromDate]. *)
Theorem createBooking_ends_before_it_starts
    (env : CreateEnv) (uid sid : string) (nboxes amt : Z) (stype : string)
    (weeks : Z) (uname : string) (w : World)
    (order : Order) (d : StorageData) (bid : string) :
  storage_get_reply env = None →
  gateway_reply env = inr order →
  storages w !! sid = Some d →
  booking_add_reply env = inr bid →
  Z.abs (clock_toDate env + weeks * 7 * 24 * 60 * 60 * 1000) ≤ 8640000000000000 →
  weeks * 7 * 86400000 + (clock_toDate env - clock_fromDate env) ≤ 0 →
  fst (createBooking env uid sid nboxes amt stype weeks uname w)
  = inr (order_id order, bid) ∧
  ∃ b t_from t_to,
    bookings (snd (createBooking env uid sid nboxes amt stype weeks uname w)) !! bid
    = Some b ∧
    fromDate b = ValidDate t_from ∧ toDate b = ValidDate t_to ∧ t_to ≤ t_from.
Proof.
  intros Hget Hgw Hsid Hadd Hrange Hneg.
  rewrite (createBooking_persists _ _ _ _ _ _ _ _ _ order d bid Hget Hgw Hsid Hadd).
  split; [reflexivity|]. eexists. exists (clock_fromDate env).
  exists (clock_toDate env + weeks * 7 * 24 * 60 * 60 * 1000).
  split; [apply lookup_insert_eq|]. split; [reflexivity|]. simpl. unfold newDate.
  destruct (Z.leb_spec (Z.abs (clock_toDate env + weeks * 7 * 24 * 60 * 60 * 1000))
              8640000000000000) as [_|Hgt]; [|lia].
  split; [reflexivity|lia].
Qed.

Lemma createBooking_ends_before_it_starts_witness :
  ∃ b,
    bookings (snd (createBooking Scenario.create_env "u1" "prov1" 3 5000 "cold" (-2)
                     "Ann" Scenario.world0)) !! "bk1" = Some b ∧
    fromDate b = ValidDate 1700000000000 ∧ toDate b = ValidDate 1698790400001.
Proof.
  destruct (createBooking_ends_before_it_starts Scenario.create_env "u1" "prov1" 3
              5000 "cold" (-2) "Ann" Scenario.world0 {| order_id := "order_abc" |}
              Scenario.depot "bk1")
    as (_ & b & t_from & t_to & Hb & Hfrom & Hto & _);
    [ reflexivity | reflexivity | vm_compute; reflexivity | reflexivity
    | vm_compute; discriminate | vm_compute; discriminate | ].
  exists b. split; [exact Hb|].
  vm_compute in Hb. injection Hb as <-. split; reflexivity.
Defined.



(** ** The registration service *)

(** *** Documents *)

Lemma document_cons (k : string) (v : jsval) (fields : list (string * jsval)) :
  document ((k, v) :: fields)
  = if is_undefined v then document fields else <[k := v]> (document fields).
Proof. unfold document. simpl. destruct (is_undefined v); reflexivity. Qed.

(** A property that the object literal does not have is not stored. *)
Lemma document_absent (fields : list (string * jsval)) (k : string) :
  k ∉ fields.*1 → document fields !! k = None.
Proof.
  induction fields as [|[k' v'] fields IH]; intros Hk; [reflexivity|].
  rewrite fmap_cons, not_elem_of_cons in Hk. destruct Hk as [Hne Hk].
  rewrite document_cons. destruct (is_undefined v'); [exact (IH Hk)|].
  rewrite lookup_insert_ne by (simpl in Hne; congruence). exact (IH Hk).
Qed.

(** Reading a property of the stored document gives back what the object
    literal had for it. *)
Lemma document_lookup (fields : list (string * jsval)) (k : string) (v : jsval) :
  NoDup fields.*1 → (k, v) ∈ fields → default JUndefined (document fields !! k) = v.
Proof.
  induction fields as [|[k' v'] fields IH]; intros Hnd Hin.
  { apply elem_of_nil in Hin. destruct Hin. }
  rewrite fmap_cons in Hnd. apply NoDup_cons in Hnd as [Hfresh Hnd].
  simpl in Hfresh. rewrite document_cons. apply elem_of_cons in Hin as [[= -> ->]|Hin].
  - destruct v'; simpl; try (rewrite lookup_insert_eq; reflexivity).
    rewrite (document_absent _ _ Hfresh). reflexivity.
  - assert (Hne : k' ≠ k).
    { intros ->. apply Hfresh. apply (list_elem_of_fmap_2 fst) in Hin. exact Hin. }
    destruct (is_undefined v'); [exact (IH Hnd Hin)|].
    rewrite lookup_insert_ne by exact Hne. exact (IH Hnd Hin).
Qed.

Lemma document_lookup_defined (fields : list (string * jsval)) (k : string) (v : jsval) :
  NoDup fields.*1 → (k, v) ∈ fields → is_undefined v = false →
  document fields !! k = Some v.
Proof.
  intros Hnd Hin Hv. pose proof (document_lookup _ _ _ Hnd Hin) as Hk.
  destruct (document fields !! k) as [v0|]; simpl in Hk; [congruence|].
  subst v. discriminate.
Qed.

Lemma truthy_defined (v : jsval) : truthy v = true → is_undefined v = false.
Proof. destruct v; simpl; congruence. Qed.

Ltac in_fields :=
  repeat first [apply list_elem_of_here | apply list_elem_of_further].
Ltac by_decision := apply (bool_decide_unpack _); vm_compute; exact I.

(** *** The paths of the sign-ups and of [getUser] *)
Section AuthPaths.

Import AuthService.

Variables (env : SignupEnv) (name phone email : jsval) (uid : string)
          (state city pincode address location aadhar pan : jsval) (s : AuthState).

Let storage_fields : list (string * jsval) :=
  [("name", name); ("phone", phone); ("state", state); ("city", city);
   ("email", email); ("pincode", pincode); ("address", address);
   ("location", location); ("aadhar", aadhar); ("pan", pan);
   ("createdAt", JNum (clock_createdAt env))].

Let user_fields : list (string * jsval) :=
  [("name", name); ("phone", phone); ("state", state); ("city", city);
   ("email", email); ("createdAt", JNum (clock_createdAt env))].

Lemma signupStorage_written :
  set_reply env = None →
  signupStorage env name phone email uid state city pincode address location aadhar
    pan s
  = (inr "Storage registered successfully",
     set_storages (insert uid (document storage_fields)) s).
Proof.
  intros Hset. unfold signupStorage, try_catch, bind, doc_set, ret.
  rewrite Hset. reflexivity.
Qed.

Lemma signupStorage_rejected reason :
  set_reply env = Some reason →
  signupStorage env name phone email uid state city pincode address location aadhar
    pan s
  = (inl (StoreError reason),
     {| users := users s;
        shared := push_error "[SIGNUP SERVICE STORAGE]" (StoreError reason) (shared s) |}).
Proof.
  intros Hset. unfold signupStorage, try_catch, bind, doc_set, log_error, throw.
  rewrite Hset. reflexivity.
Qed.

Lemma signupUser_written :
  set_reply env = None →
  signupUser env name phone email uid state city s
  = (inr "User registered successfully",
     set_users (insert uid (document user_fields)) s).
Proof.
  intros Hset. unfold signupUser, try_catch, bind, doc_set, ret.
  rewrite Hset. reflexivity.
Qed.

Lemma signupUser_rejected reason :
  set_reply env = Some reason →
  signupUser env name phone email uid state city s
  = (inl (StoreError reason),
     {| users := users s;
        shared := push_error "[SIGNUP SERVICE USER]" (StoreError reason) (shared s) |}).
Proof.
  intros Hset. unfold signupUser, try_catch, bind, doc_set, log_error, throw.
  rewrite Hset. reflexivity.
Qed.

Lemma storage_fields_nodup : NoDup storage_fields.*1.
Proof. by_decision. Qed.

Lemma user_fields_nodup : NoDup user_fields.*1.
Proof. by_decision. Qed.

End AuthPaths.

Section GetUserPaths.

Import AuthService.

Variables (env : GetUserEnv) (uid : string) (s : AuthState).

Let logged (e : error) : AuthState :=
  {| users := users s; shared := push_error "[GET USER]" e (shared s) |}.

Ltac run_getUser :=
  unfold getUser, try_catch, bind, doc_get, log_error, throw, ret.

Lemma getUser_users_rejected reason :
  users_get_reply env = Some reason →
  getUser env uid s = (inl (StoreError reason), logged (StoreError reason)).
Proof. intros Hu. run_getUser. rewrite Hu. reflexivity. Qed.

Lemma getUser_user data :
  users_get_reply env = None →
  users s !! uid = Some data →
  getUser env uid s = (inr data, s).
Proof. intros Hu Hdata. run_getUser. rewrite Hu. simpl. rewrite Hdata. reflexivity. Qed.

Lemma getUser_storages_rejected reason :
  users_get_reply env = None →
  users s !! uid = None →
  storages_get_reply env = Some reason →
  getUser env uid s = (inl (StoreError reason), logged (StoreError reason)).
Proof.
  intros Hu Hnone Hs. run_getUser. rewrite Hu. simpl. rewrite Hnone, Hs. reflexivity.
Qed.

Lemma getUser_storage data :
  users_get_reply env = None →
  users s !! uid = None →
  storages_get_reply env = None →
  storages (shared s) !! uid = Some data →
  getUser env uid s = (inr (<["isStorage" := JBool true]> data), s).
Proof.
  intros Hu Hnone Hs Hdata. run_getUser. rewrite Hu. simpl. rewrite Hnone, Hs. simpl.
  rewrite Hdata. reflexivity.
Qed.

Lemma getUser_nobody :
  users_get_reply env = None →
  users s !! uid = None →
  storages_get_reply env = None →
  storages (shared s) !! uid = None →
  getUser env uid s
  = (inl (Thrown 402 "User not found"), logged (Thrown 402 "User not found")).
Proof.
  intros Hu Hnone Hs Hdata. run_getUser. rewrite Hu. simpl. rewrite Hnone, Hs. simpl.
  rewrite Hdata. reflexivity.
Qed.

End GetUserPaths.

(** *** Registration *)

(** X13. [registerUser] with any of pincode, address, location, aadhar and
    pan missing or empty registers a user: with the store taking the
    write, the reply is that of [signupUser], the storages and the log are
    untouched, and the user document has none of the five, whichever of
    them were given. *)
Theorem registerUser_incomplete_registers_user
    (env : AuthService.SignupEnv) (nm ph email : jsval) (uid : string)
    (state city pincode addr location aadhar pan : jsval) (s : AuthState) :
  truthy pincode && truthy addr && truthy location && truthy aadhar && truthy pan
  = false →
  AuthService.set_reply env = None →
  let r := AuthService.registerUser env nm ph email uid state city pincode addr
             location aadhar pan s in
  fst r = inr "User registered successfully" ∧
  shared (snd r) = shared s ∧
  ∃ data,
    users (snd r) !! uid = Some data ∧
    data !! "pincode" = None ∧ data !! "address" = None ∧
    data !! "location" = None ∧ data !! "aadhar" = None ∧ data !! "pan" = None.
Proof.
  intros Hany Hset r. subst r. unfold AuthService.registerUser. rewrite Hany.
  rewrite (signupUser_written _ _ _ _ _ _ _ _ Hset). simpl.
  split; [reflexivity|]. split; [reflexivity|]. eexists.
  split; [apply lookup_insert_eq|].
  repeat split; apply document_absent; by_decision.
Qed.

Lemma registerUser_incomplete_registers_user_witness :
  let r := AuthService.registerUser AuthScenario.signup_env (JStr "Depot Two")
             (JStr "558") (JStr "two@example.com") "prov9" (JStr "KA")
             (JStr "Mysuru") (JStr "570001") (JStr "3 Back St") (JStr "12.3,76.6")
             (JStr "") (JStr "ABCDE1234F") AuthScenario.state0 in
  fst r = inr "User registered successfully" ∧
  storages (shared (snd r)) !! "prov9" = None ∧
  ∃ data, users (snd r) !! "prov9" = Some data ∧ data !! "address" = None.
Proof.
  intros r.
  destruct (registerUser_incomplete_registers_user AuthScenario.signup_env
              (JStr "Depot Two") (JStr "558") (JStr "two@example.com") "prov9"
              (JStr "KA") (JStr "Mysuru") (JStr "570001") (JStr "3 Back St")
              (JStr "12.3,76.6") (JStr "") (JStr "ABCDE1234F") AuthScenario.state0)
    as (Hr & Hshared & data & Hdata & _ & Haddr & _); [reflexivity | reflexivity |].
  split; [exact Hr|]. split.
  - fold r in Hshared. rewrite Hshared. vm_compute. reflexivity.
  - exists data. split; [exact Hdata | exact Haddr].
Defined.

(** X14. [registerUser] with all five given registers a storage: with the
    store taking the write, the reply is that of [signupStorage], the
    users are untouched, and the storage document has the five as given
    and no [images]. *)
Theorem registerUser_complete_registers_storage
    (env : AuthService.SignupEnv) (nm ph email : jsval) (uid : string)
    (state city pincode addr location aadhar pan : jsval) (s : AuthState) :
  truthy pincode && truthy addr && truthy location && truthy aadhar && truthy pan
  = true →
  AuthService.set_reply env = None →
  let r := AuthService.registerUser env nm ph email uid state city pincode addr
             location aadhar pan s in
  fst r = inr "Storage registered successfully" ∧
  users (snd r) = users s ∧
  ∃ data,
    storages (shared (snd r)) !! uid = Some data ∧
    data !! "pincode" = Some pincode ∧ data !! "address" = Some addr ∧
    data !! "location" = Some location ∧ data !! "aadhar" = Some aadhar ∧
    data !! "pan" = Some pan ∧ data !! "images" = None.
Proof.
  intros Hall Hset r. subst r. unfold AuthService.registerUser. rewrite Hall.
  rewrite (signupStorage_written _ _ _ _ _ _ _ _ _ _ _ _ _ Hset). simpl.
  repeat (apply andb_prop in Hall as [Hall ?]).
  split; [reflexivity|]. split; [reflexivity|]. eexists.
  split; [apply lookup_insert_eq|].
  repeat split;
    first [ apply document_absent; by_decision
          | apply document_lookup_defined;
            [by_decision | in_fields | apply truthy_defined; assumption] ].
Qed.

Lemma registerUser_complete_registers_storage_witness :
  let r := AuthService.registerUser AuthScenario.signup_env (JStr "Depot Two")
             (JStr "558") (JStr "two@example.com") "prov9" (JStr "KA")
             (JStr "Mysuru") (JStr "570001") (JStr "3 Back St") (JStr "12.3,76.6")
             (JStr "1234 5678 9012") (JStr "ABCDE1234F") AuthScenario.state0 in
  fst r = inr "Storage registered successfully" ∧
  ∃ data, storages (shared (snd r)) !! "prov9" = Some data ∧
          data !! "address" = Some (JStr "3 Back St").
Proof.
  intros r.
  destruct (registerUser_complete_registers_storage AuthScenario.signup_env
              (JStr "Depot Two") (JStr "558") (JStr "two@example.com") "prov9"
              (JStr "KA") (JStr "Mysuru") (JStr "570001") (JStr "3 Back St")
              (JStr "12.3,76.6") (JStr "1234 5678 9012") (JStr "ABCDE1234F")
              AuthScenario.state0)
    as (Hr & _ & data & Hdata & _ & Haddr & _); [reflexivity | reflexivity |].
  split; [exact Hr|]. exists data. split; [exact Hdata | exact Haddr].
Defined.

(** X15. When the store rejects the write, [registerUser] rejects with the
    store's error, logs it under the tag of the sign-up it chose, and
    leaves both collections as they were. *)
Theorem registerUser_write_rejected
    (env : AuthService.SignupEnv) (nm ph email : jsval) (uid : string)
    (state city pincode addr location aadhar pan : jsval) (s : AuthState)
    (reason : string) :
  AuthService.set_reply env = Some reason →
  let r := AuthService.registerUser env nm ph email uid state city pincode addr
             location aadhar pan s in
  let tag :=
    if truthy pincode && truthy addr && truthy location && truthy aadhar
       && truthy pan
    then "[SIGNUP SERVICE STORAGE]" else "[SIGNUP SERVICE USER]" in
  fst r = inl (StoreError reason) ∧
  users (snd r) = users s ∧
  storages (shared (snd r)) = storages (shared s) ∧
  error_log (shared (snd r)) = (tag, StoreError reason) :: error_log (shared s).
Proof.
  intros Hset r tag. subst r tag. unfold AuthService.registerUser.
  destruct (truthy pincode && truthy addr && truthy location && truthy aadhar
            && truthy pan).
  - rewrite (signupStorage_rejected _ _ _ _ _ _ _ _ _ _ _ _ _ reason Hset).
    repeat split.
  - rewrite (signupUser_rejected _ _ _ _ _ _ _ _ reason Hset). repeat split.
Qed.

Lemma registerUser_write_rejected_witness :
  let env := {| AuthService.set_reply := Some "PERMISSION_DENIED";
                AuthService.clock_createdAt := 1690000000000 |} in
  let r := AuthService.registerUser env (JStr "Bob") (JStr "559")
             (JStr "bob@example.com") "u7" (JStr "KA") (JStr "Mysuru") JUndefined
             JUndefined JUndefined JUndefined JUndefined AuthScenario.state0 in
  fst r = inl (StoreError "PERMISSION_DENIED") ∧
  error_log (shared (snd r))
  = [("[SIGNUP SERVICE USER]", StoreError "PERMISSION_DENIED")].
Proof.
  intros env r.
  destruct (registerUser_write_rejected env (JStr "Bob") (JStr "559")
              (JStr "bob@example.com") "u7" (JStr "KA") (JStr "Mysuru") JUndefined
              JUndefined JUndefined JUndefined JUndefined AuthScenario.state0
              "PERMISSION_DENIED") as (Hr & _ & _ & Hlog); [reflexivity|].
  split; [exact Hr | exact Hlog].
Defined.

(** *** Looking a user up *)

(** X16. [getUser] only reads: a successful call leaves the state as it
    was and returns the user document when there is one, and otherwise
    the storage document with [isStorage: true] added to the copy it
    returns; a rejected call adds one entry to the log, under "[GET
    USER]" with the error it rejects with, and changes nothing else. *)
Theorem getUser_reads_only
    (env : AuthService.GetUserEnv) (uid : string) (s : AuthState) :
  let r := AuthService.getUser env uid s in
  (∀ data, fst r = inr data →
     snd r = s ∧
     (users s !! uid = Some data ∨
      users s !! uid = None ∧
      ∃ d, storages (shared s) !! uid = Some d ∧
           data = <["isStorage" := JBool true]> d)) ∧
  (∀ e, fst r = inl e →
     snd r = {| users := users s; shared := push_error "[GET USER]" e (shared s) |}).
Proof.
  intros r. subst r.
  destruct (AuthService.users_get_reply env) as [reason|] eqn:Hu.
  { rewrite (getUser_users_rejected _ _ _ reason Hu). simpl.
    split; [discriminate|]. intros e [= <-]. reflexivity. }
  destruct (users s !! uid) as [data|] eqn:Hdata.
  { rewrite (getUser_user _ _ _ data Hu Hdata). simpl.
    split; [|discriminate]. intros data' [= <-]. auto. }
  destruct (AuthService.storages_get_reply env) as [reason|] eqn:Hs.
  { rewrite (getUser_storages_rejected _ _ _ reason Hu Hdata Hs). simpl.
    split; [discriminate|]. intros e [= <-]. reflexivity. }
  destruct (storages (shared s) !! uid) as [d|] eqn:Hd.
  - rewrite (getUser_storage _ _ _ d Hu Hdata Hs Hd). simpl.
    split; [|discriminate]. intros data' [= <-]. split; [reflexivity|].
    right. split; [reflexivity|]. exists d. split; reflexivity.
  - rewrite (getUser_nobody _ _ _ Hu Hdata Hs Hd). simpl.
    split; [discriminate|]. intros e [= <-]. reflexivity.
Qed.

Lemma getUser_reads_only_witness :
  let r := AuthService.getUser AuthScenario.get_env "prov1" AuthScenario.state0 in
  fst r = inr (<["isStorage" := JBool true]> Scenario.depot) ∧
  snd r = AuthScenario.state0 ∧
  storages (shared (snd r)) !! "prov1" = Some Scenario.depot.
Proof.
  intros r.
  assert (Hr : fst r = inr (<["isStorage" := JBool true]> Scenario.depot))
    by (vm_compute; reflexivity).
  split; [exact Hr|].
  destruct (getUser_reads_only AuthScenario.get_env "prov1" AuthScenario.state0)
    as [Hok _].
  destruct (Hok _ Hr) as [Hs _]. fold r in Hs. split; [exact Hs|].
  rewrite Hs. vm_compute. reflexivity.
Defined.

(** X17. An identifier that is a user's is looked up as a user even when a
    storage has it too: the reply is the user document as stored, and the
    storages are not read at all, so that neither their content nor a
    store that would reject that read matters. *)
Theorem getUser_user_before_storage
    (env : AuthService.GetUserEnv) (uid : string) (s : AuthState)
    (data : gmap string jsval) :
  AuthService.users_get_reply env = None →
  users s !! uid = Some data →
  AuthService.getUser env uid s = (inr data, s).
Proof. intros Hu Hdata. apply getUser_user; [exact Hu | exact Hdata]. Qed.

Lemma getUser_user_before_storage_witness :
  let env := {| AuthService.users_get_reply := None;
                AuthService.storages_get_reply := Some "UNAVAILABLE" |} in
  is_Some (storages (shared AuthScenario.state_both) !! "prov1") ∧
  fst (AuthService.getUser env "prov1" AuthScenario.state_both)
  = inr AuthScenario.ann ∧
  AuthScenario.ann !! "isStorage" = None.
Proof.
  intros env. split; [exists Scenario.depot; vm_compute; reflexivity|]. split.
  - rewrite (getUser_user_before_storage env "prov1" AuthScenario.state_both
               AuthScenario.ann); [reflexivity | reflexivity | vm_compute; reflexivity].
  - vm_compute. reflexivity.
Defined.

(** X18. For an identifier that is neither a user's nor a storage's,
    [getUser] throws [{ status: 402, message: "User not found" }]. *)
Theorem getUser_unknown
    (env : AuthService.GetUserEnv) (uid : string) (s : AuthState) :
  AuthService.users_get_reply env = None →
  AuthService.storages_get_reply env = None →
  users s !! uid = None →
  storages (shared s) !! uid = None →
  fst (AuthService.getUser env uid s) = inl (Thrown 402 "User not found") ∧
  status_of (Thrown 402 "User not found") = Some 402.
Proof.
  intros Hu Hs Hnone Hd. rewrite (getUser_nobody _ _ _ Hu Hnone Hs Hd).
  split; reflexivity.
Qed.

Lemma getUser_unknown_witness :
  users AuthScenario.state0 !! "ghost" = None ∧
  fst (AuthService.getUser AuthScenario.get_env "ghost" AuthScenario.state0)
  = inl (Thrown 402 "User not found").
Proof.
  split; [reflexivity|].
  apply (getUser_unknown AuthScenario.get_env "ghost" AuthScenario.state0);
    [reflexivity | reflexivity | reflexivity | vm_compute; reflexivity].
Defined.

(** X19. What [signupUser] writes, [getUser] reads back: after a sign-up
    that the store took, the lookup of the same identifier returns a
    document whose name, phone, state, city and email are the ones given
    and whose [createdAt] is the time of the sign-up. It has no other
    property: whatever the identifier's document held before is gone. *)
Theorem getUser_after_signupUser
    (env : AuthService.SignupEnv) (genv : AuthService.GetUserEnv)
    (nm ph email : jsval) (uid : string) (state city : jsval) (s : AuthState) :
  AuthService.set_reply env = None →
  AuthService.users_get_reply genv = None →
  let s1 := snd (AuthService.signupUser env nm ph email uid state city s) in
  ∃ data,
    AuthService.getUser genv uid s1 = (inr data, s1) ∧
    default JUndefined (data !! "name") = nm ∧
    default JUndefined (data !! "phone") = ph ∧
    default JUndefined (data !! "state") = state ∧
    default JUndefined (data !! "city") = city ∧
    default JUndefined (data !! "email") = email ∧
    data !! "createdAt" = Some (JNum (AuthService.clock_createdAt env)) ∧
    ∀ k, k ∉ ["name"; "phone"; "state"; "city"; "email"; "createdAt"] →
         data !! k = None.
Proof.
  intros Hset Hget s1. subst s1.
  rewrite (signupUser_written _ _ _ _ _ _ _ _ Hset). simpl. eexists. split.
  { apply getUser_user; [exact Hget | apply lookup_insert_eq]. }
  repeat split;
    try (apply document_lookup; [by_decision | in_fields]).
  - apply document_lookup_defined; [by_decision | in_fields | reflexivity].
  - intros k Hk. apply document_absent. exact Hk.
Qed.

Lemma getUser_after_signupUser_witness :
  let s1 := snd (AuthService.signupUser AuthScenario.signup_env (JStr "Bob")
                   (JStr "559") (JStr "bob@example.com") "prov1" (JStr "KA")
                   JUndefined AuthScenario.state_both) in
  ∃ data,
    fst (AuthService.getUser AuthScenario.get_env "prov1" s1) = inr data ∧
    default JUndefined (data !! "name") = JStr "Bob" ∧
    default JUndefined (data !! "city") = JUndefined.
Proof.
  intros s1.
  destruct (getUser_after_signupUser AuthScenario.signup_env AuthScenario.get_env
              (JStr "Bob") (JStr "559") (JStr "bob@example.com") "prov1" (JStr "KA")
              JUndefined AuthScenario.state_both)
    as (data & Hget & Hname & _ & _ & Hcity & _); [reflexivity | reflexivity |].
  fold s1 in Hget. exists data. rewrite Hget.
  split; [reflexivity|]. split; [exact Hname | exact Hcity].
Defined.

(** X20. What [signupStorage] writes, [getUser] reads back as a storage:
    for an identifier that is not a user's, the lookup after a sign-up
    that the store took returns the name, phone, address and pincode given,
    with [isStorage: true]; the flag is on the reply only, the stored
    document does not have it. *)
Theorem getUser_after_signupStorage
    (env : AuthService.SignupEnv) (genv : AuthService.GetUserEnv)
    (nm ph email : jsval) (uid : string)
    (state city pincode addr location aadhar pan : jsval) (s : AuthState) :
  AuthService.set_reply env = None →
  AuthService.users_get_reply genv = None →
  AuthService.storages_get_reply genv = None →
  users s !! uid = None →
  let s1 := snd (AuthService.signupStorage env nm ph email uid state city pincode
                   addr location aadhar pan s) in
  ∃ data stored,
    AuthService.getUser genv uid s1 = (inr data, s1) ∧
    data !! "isStorage" = Some (JBool true) ∧
    default JUndefined (data !! "name") = nm ∧
    default JUndefined (data !! "phone") = ph ∧
    default JUndefined (data !! "address") = addr ∧
    default JUndefined (data !! "pincode") = pincode ∧
    storages (shared s1) !! uid = Some stored ∧
    stored !! "isStorage" = None.
Proof.
  intros Hset Hu Hs Hnone s1. subst s1.
  rewrite (signupStorage_written _ _ _ _ _ _ _ _ _ _ _ _ _ Hset). simpl.
  eexists. eexists. split.
  { apply getUser_storage; [exact Hu | exact Hnone | exact Hs | apply lookup_insert_eq]. }
  split; [apply lookup_insert_eq|].
  repeat split;
    try (rewrite lookup_insert_ne by discriminate;
         apply document_lookup; [by_decision | in_fields]).
  - simpl. apply lookup_insert_eq.
  - apply document_absent. by_decision.
Qed.

Lemma getUser_after_signupStorage_witness :
  let s1 := snd (AuthService.signupStorage AuthScenario.signup_env
                   (JStr "Depot Two") (JStr "558") (JStr "two@example.com") "prov9"
                   (JStr "KA") (JStr "Mysuru") (JStr "570001") (JStr "3 Back St")
                   (JStr "12.3,76.6") (JStr "1234 5678 9012") (JStr "ABCDE1234F")
                   AuthScenario.state0) in
  ∃ data,
    fst (AuthService.getUser AuthScenario.get_env "prov9" s1) = inr data ∧
    data !! "isStorage" = Some (JBool true) ∧
    default JUndefined (data !! "name") = JStr "Depot Two".
Proof.
  intros s1.
  destruct (getUser_after_signupStorage AuthScenario.signup_env AuthScenario.get_env
              (JStr "Depot Two") (JStr "558") (JStr "two@example.com") "prov9"
              (JStr "KA") (JStr "Mysuru") (JStr "570001") (JStr "3 Back St")
              (JStr "12.3,76.6") (JStr "1234 5678 9012") (JStr "ABCDE1234F")
              AuthScenario.state0)
    as (data & stored & Hget & Hflag & Hname & _);
    [reflexivity | reflexivity | reflexivity | reflexivity |].
  fold s1 in Hget. exists data. rewrite Hget.
  split; [reflexivity|]. split; [exact Hflag | exact Hname].
Defined.

(** *** Registration and booking together *)

(** X21. A booking made on a storage right after its [signupStorage]
    carries the name, address and phone of the sign-up and the empty
    string as [image]: the sign-up writes no [images], and it replaces the
    storage document, so that images which the storage had before are
    gone too. *)
Theorem signupStorage_then_createBooking
    (senv : AuthService.SignupEnv) (nm ph email : jsval) (sid : string)
    (state city pincode addr location aadhar pan : jsval) (s : AuthState)
    (cenv : CreateEnv) (uid : string) (nboxes amt : Z) (stype : string)
    (weeks : Z) (uname : string) (order : Order) (bid : string) :
  AuthService.set_reply senv = None →
  storage_get_reply cenv = None →
  gateway_reply cenv = inr order →
  booking_add_reply cenv = inr bid →
  let s1 := snd (AuthService.signupStorage senv nm ph email sid state city pincode
                   addr location aadhar pan s) in
  let r := createBooking cenv uid sid nboxes amt stype weeks uname (shared s1) in
  fst r = inr (order_id order, bid) ∧
  ∃ b,
    bookings (snd r) !! bid = Some b ∧
    storageName b = nm ∧ address b = addr ∧ phone b = ph ∧ image b = JStr "".
Proof.
  intros Hset Hget Hgw Hadd s1 r. subst r s1.
  rewrite (signupStorage_written _ _ _ _ _ _ _ _ _ _ _ _ _ Hset). simpl.
  erewrite createBooking_persists;
    [ | exact Hget | exact Hgw | simpl; apply lookup_insert_eq | exact Hadd ].
  split; [reflexivity|]. eexists. split; [apply lookup_insert_eq|]. simpl.
  repeat split; try (apply document_lookup; [by_decision | in_fields]).
  unfold snapshot_image. rewrite document_absent by by_decision. reflexivity.
Qed.

Lemma signupStorage_then_createBooking_witness :
  snapshot_image Scenario.depot = JStr "a.png" ∧
  let s1 := snd (AuthService.signupStorage AuthScenario.signup_env (JStr "Depot")
                   (JStr "555") (JStr "depot@example.com") "prov1" (JStr "KA")
                   (JStr "Mysuru") (JStr "570001") (JStr "1 Main St")
                   (JStr "12.3,76.6") (JStr "1234 5678 9012") (JStr "ABCDE1234F")
                   AuthScenario.state0) in
  ∃ b,
    bookings (snd (createBooking Scenario.create_env "u1" "prov1" 3 5000 "cold" 4
                     "Ann" (shared s1))) !! "bk1" = Some b ∧
    storageName b = JStr "Depot" ∧ image b = JStr "".
Proof.
  split; [vm_compute; reflexivity|]. intros s1.
  destruct (signupStorage_then_createBooking AuthScenario.signup_env (JStr "Depot")
              (JStr "555") (JStr "depot@example.com") "prov1" (JStr "KA")
              (JStr "Mysuru") (JStr "570001") (JStr "1 Main St") (JStr "12.3,76.6")
              (JStr "1234 5678 9012") (JStr "ABCDE1234F") AuthScenario.state0
              Scenario.create_env "u1" 3 5000 "cold" 4 "Ann"
              {| order_id := "order_abc" |} "bk1")
    as (_ & b & Hb & Hname & _ & _ & Himage);
    [reflexivity | reflexivity | reflexivity | reflexivity |].
  exists b. split; [exact Hb|]. split; [exact Hname | exact Himage].
Defined.
